(** * dek-creator: the DEK provisioning Lambda handler

    A shallow embedding of [src/dek-creator/app.mjs].  The file holds two
    variants of the same handler: the first one reads the database URI from
    AWS Secrets Manager (module [SecretStore], lines 1-122), the second one
    reads it from [process.env.MONGODB_URI] and keeps two module-level
    bindings (module [EnvVar], lines 123-230).

    The handler is sequential glue around external collaborators.  The
    collaborators are a [World]: one outcome per call site.  What the
    handler does is a value of a small exception-and-trace monad: it
    returns or throws, it may update the module-level bindings, and it
    leaves the chronological list of the calls it made.  An [await] is
    sequencing: a rejected promise is a throw at the [await].

    [JSON.stringify] and the conversion of a template literal are
    modelled with the exceptions they throw, so that the [catch] block of
    the handler can itself throw.  The block at the end of each variant,
    which under [ENV === "local"] reads [event.json] and calls the handler
    once, is modelled under Loading the module. *)

From Stdlib Require Import ZArith NArith.
From Stdlib.Strings Require Import Ascii String Byte.
From stdpp Require Import base list strings.

Set Warnings "-register-all".
Local Open Scope string_scope.

(** ** JavaScript values *)

(** The values the handler meets: what [JSON.parse] builds (the event, the
    secret), [undefined], and what a collaborator rejects with.

    A Number is kept as the text that [Number.prototype.toString] gives
    for it (["0"] for both zeros, ["NaN"], ["1e+21"], ["0.5"]...): its
    text and its truthiness are all the handler observes of a number.  A
    BigInt is its integer.

    An object is the list of its own enumerable string-keyed properties
    in enumeration order, keys distinct; none of the values is a function.
    [JsCircular] is an object some of whose properties hold the object
    itself: those are [None] in the list.  An [Error] instance carries
    [name] (on the prototype) and [message] (own, not enumerable) next to
    its own enumerable properties [props]; [stack] is not observed by the
    handler.  Symbols, functions and accessor properties are outside this
    universe. *)
Inductive JsValue : Type :=
| JsUndefined
| JsNull
| JsBool (b : bool)
| JsNumber (text : string)
| JsBigInt (n : Z)
| JsString (s : string)
| JsArray (items : list JsValue)
| JsObject (props : list (string * JsValue))
| JsCircular (props : list (string * option JsValue))
| JsError (name message : string) (props : list (string * JsValue)).

(** A call returns (an awaited promise resolves) or throws (it rejects). *)
Inductive Outcome (A : Type) : Type :=
| Return (a : A)
| Throw (e : JsValue).
Arguments Return {A} a.
Arguments Throw {A} e.

Definition TypeError (message : string) : JsValue := JsError "TypeError" message [].

(** [v === undefined || v === null] *)
Definition is_nullish (v : JsValue) : bool :=
  match v with
  | JsUndefined | JsNull => true
  | _ => false
  end.

(** ToBoolean: the falsy values are [undefined], [null], [false], the
    zeros and [NaN], the BigInt zero and the empty string. *)
Definition truthy (v : JsValue) : bool :=
  match v with
  | JsUndefined | JsNull => false
  | JsBool b => b
  | JsNumber text => negb (String.eqb text "0" || String.eqb text "NaN")
  | JsBigInt n => negb (n =? 0)%Z
  | JsString s => negb (String.eqb s "")
  | JsArray _ | JsObject _ | JsCircular _ | JsError _ _ _ => true
  end.

Fixpoint assoc {A} (key : string) (props : list (string * A)) : option A :=
  match props with
  | [] => None
  | (k, v) :: rest => if String.eqb k key then Some v else assoc key rest
  end.

(** [key] is an own property. *)
Definition has_own {A} (key : string) (props : list (string * A)) : bool :=
  match assoc key props with
  | Some _ => true
  | None => false
  end.

(** [o[key]] for a non-nullish [o]: an own property, [message] and [name]
    of an [Error], and [undefined] for everything else the handler asks
    for (no property it reads is inherited by a primitive or an array). *)
Definition lookup_prop (o : JsValue) (key : string) : JsValue :=
  match o with
  | JsObject props => default JsUndefined (assoc key props)
  | JsCircular props =>
      match assoc key props with
      | Some (Some v) => v
      | Some None => o
      | None => JsUndefined
      end
  | JsError name message props =>
      match assoc key props with
      | Some v => v
      | None =>
          if String.eqb key "message" then JsString message
          else if String.eqb key "name" then JsString name
          else JsUndefined
      end
  | _ => JsUndefined
  end.

(** ** Conversion to a string *)

Definition digit_char (d : N) : ascii := ascii_of_N (48 + d).

Fixpoint pos_digits (fuel : nat) (n : N) (acc : string) : string :=
  match fuel with
  | O => acc
  | S fuel' =>
      let acc' := String (digit_char (n mod 10)) acc in
      if (n / 10 =? 0)%N then acc' else pos_digits fuel' (n / 10) acc'
  end.

(** [BigInt.prototype.toString]: all the decimal digits. *)
Definition bigint_to_string (n : Z) : string :=
  let mag := Z.to_N (Z.abs n) in
  let ds := pos_digits (S (N.to_nat (N.log2 mag))) mag "" in
  if (n <? 0)%Z then "-" +:+ ds else ds.

Fixpoint join (sep : string) (parts : list string) : string :=
  match parts with
  | [] => ""
  | [p] => p
  | p :: rest => p +:+ sep +:+ join sep rest
  end.

(** ToString, as a template literal applies it to [${v}]; [None] when it
    throws the [TypeError] of [cannot_convert].

    An object is first made a primitive: its [toString] is called if it is
    callable, else its [valueOf].  An own [toString] property shadows the
    inherited method and is no function here; [valueOf], own or inherited,
    then gives no primitive, and the conversion throws.  Without an own
    [toString] a plain object is ["[object Object]"]; an array joins the
    texts of its items with commas, [undefined] and [null] items giving
    the empty text; an [Error] is [name: message], where [name] and
    [message] are read from the object (an own property first;
    [undefined] gives ["Error"] and the empty text) and converted in
    turn. *)
Fixpoint to_string (v : JsValue) : option string :=
  let fix texts (items : list JsValue) : option (list string) :=
    match items with
    | [] => Some []
    | x :: rest =>
        match (if is_nullish x then Some "" else to_string x), texts rest with
        | Some t, Some ts => Some (t :: ts)
        | _, _ => None
        end
    end in
  let fix own (key absent : string) (props : list (string * JsValue))
      : option (option string) :=
    match props with
    | [] => None
    | (k, x) :: rest =>
        if String.eqb k key
        then Some (match x with JsUndefined => Some absent | _ => to_string x end)
        else own key absent rest
    end in
  match v with
  | JsUndefined => Some "undefined"
  | JsNull => Some "null"
  | JsBool true => Some "true"
  | JsBool false => Some "false"
  | JsNumber text => Some text
  | JsBigInt n => Some (bigint_to_string n)
  | JsString s => Some s
  | JsArray items =>
      match texts items with
      | Some ts => Some (join "," ts)
      | None => None
      end
  | JsObject props => if has_own "toString" props then None else Some "[object Object]"
  | JsCircular props => if has_own "toString" props then None else Some "[object Object]"
  | JsError name message props =>
      if has_own "toString" props then None
      else
        match default (Some name) (own "name" "Error" props),
              default (Some message) (own "message" "" props) with
        | Some n, Some m =>
            Some (if String.eqb n "" then m
                  else if String.eqb m "" then n
                  else n +:+ ": " +:+ m)
        | _, _ => None
        end
  end.

Definition cannot_convert : JsValue := TypeError "Cannot convert object to primitive value".

(** [`${v}`] *)
Definition ToString (v : JsValue) : Outcome string :=
  match to_string v with
  | Some text => Return text
  | None => Throw cannot_convert
  end.

(** ** JSON.stringify *)

Definition hex_digit (d : N) : ascii :=
  if (d <? 10)%N then ascii_of_N (48 + d) else ascii_of_N (87 + d).

(** The one-character string holding the double quote (code unit 34). *)
Definition dquote : string := String (ascii_of_N 34) "".

(** QuoteJSONString on one code unit. *)
Definition quote_char (c : ascii) : string :=
  let n := N_of_ascii c in
  if (n =? 34)%N then "\" +:+ dquote
  else if (n =? 92)%N then "\\"
  else if (n =? 8)%N then "\b"
  else if (n =? 9)%N then "\t"
  else if (n =? 10)%N then "\n"
  else if (n =? 12)%N then "\f"
  else if (n =? 13)%N then "\r"
  else if (n <? 32)%N then
    "\u00" +:+ String (hex_digit (n / 16)) (String (hex_digit (n mod 16)) "")
  else String c "".

Fixpoint quote_body (s : string) : string :=
  match s with
  | EmptyString => ""
  | String c rest => quote_char c +:+ quote_body rest
  end.

Definition quote (s : string) : string := dquote +:+ quote_body s +:+ dquote.

(** What serializing a value comes to: a text, no text ([undefined]), or
    a [TypeError] thrown on the way. *)
Inductive Json : Type :=
| Text (s : string)
| NoText
| Fails (e : JsValue).

Definition cannot_serialize_BigInt : JsValue :=
  TypeError "Do not know how to serialize a BigInt".

(** The first line of the message V8 gives; it goes on to name the
    property that closes the circle. *)
Definition circular_structure : JsValue :=
  TypeError "Converting circular structure to JSON".

(** The members of an object, given how a value is serialized: in order,
    the first property that throws ends the whole, and a property whose
    value has no text is left out. *)
Definition members_with (serialize : JsValue → Json)
  : list (string * JsValue) → JsValue + list string :=
  fix members props :=
    match props with
    | [] => inr []
    | (k, x) :: rest =>
        match serialize x with
        | Fails e => inl e
        | NoText => members rest
        | Text t =>
            match members rest with
            | inl e => inl e
            | inr ts => inr ((quote k +:+ ":" +:+ t) :: ts)
            end
        end
    end.

(** The same for an object that holds itself: reaching a property that
    holds the object throws. *)
Definition circular_members_with (serialize : JsValue → Json)
  : list (string * option JsValue) → JsValue + list string :=
  fix members props :=
    match props with
    | [] => inr []
    | (k, None) :: _ => inl circular_structure
    | (k, Some x) :: rest =>
        match serialize x with
        | Fails e => inl e
        | NoText => members rest
        | Text t =>
            match members rest with
            | inl e => inl e
            | inr ts => inr ((quote k +:+ ":" +:+ t) :: ts)
            end
        end
    end.

(** The elements of an array: an item that has no text is [null]. *)
Definition elements_with (serialize : JsValue → Json)
  : list JsValue → JsValue + list string :=
  fix elements items :=
    match items with
    | [] => inr []
    | x :: rest =>
        match serialize x with
        | Fails e => inl e
        | NoText =>
            match elements rest with
            | inl e => inl e
            | inr ts => inr ("null" :: ts)
            end
        | Text t =>
            match elements rest with
            | inl e => inl e
            | inr ts => inr (t :: ts)
            end
        end
    end.

Definition braces (members : JsValue + list string) : Json :=
  match members with
  | inl e => Fails e
  | inr ts => Text ("{" +:+ join "," ts +:+ "}")
  end.

Definition brackets (elements : JsValue + list string) : Json :=
  match elements with
  | inl e => Fails e
  | inr ts => Text ("[" +:+ join "," ts +:+ "]")
  end.

(** SerializeJSONProperty.  Properties and items are serialized in order,
    and the first one that throws ends the whole: a BigInt throws, and so
    does a property that holds an object already being serialized.  A
    number that is not finite is [null].  An [Error] is serialized as any
    object, from its own enumerable properties: [message] and [stack] are
    not among them.  No value here has a callable [toJSON]. *)
Fixpoint serialize (v : JsValue) : Json :=
  match v with
  | JsUndefined => NoText
  | JsNull => Text "null"
  | JsBool true => Text "true"
  | JsBool false => Text "false"
  | JsNumber text =>
      if String.eqb text "NaN" || String.eqb text "Infinity" || String.eqb text "-Infinity"
      then Text "null" else Text text
  | JsBigInt _ => Fails cannot_serialize_BigInt
  | JsString s => Text (quote s)
  | JsArray items => brackets (elements_with serialize items)
  | JsObject props => braces (members_with serialize props)
  | JsCircular props => braces (circular_members_with serialize props)
  | JsError _ _ props => braces (members_with serialize props)
  end.

(** [JSON.stringify(v)]: it returns a string or [undefined], or throws. *)
Definition JSON_stringify (v : JsValue) : Outcome JsValue :=
  match serialize v with
  | Text s => Return (JsString s)
  | NoText => Return JsUndefined
  | Fails e => Throw e
  end.

(** What [JSON.stringify(v)] returns, when it returns. *)
Definition stringified (v : JsValue) : JsValue :=
  match serialize v with
  | Text s => JsString s
  | NoText | Fails _ => JsUndefined
  end.

(** ** The uuid package *)

(** A [Uint8Array] (a Node [Buffer] is one): a list of bytes.  A store
    wraps modulo 256 and is ignored out of range; a read out of range is
    [undefined]. *)
Definition uint8 (n : N) : byte := default x00 (Byte.of_N (n mod 256)).

(** [byteToHex[b]]: two lower-case hexadecimal digits. *)
Definition byteToHex (b : byte) : string :=
  let n := Byte.to_N b in
  String (hex_digit (n / 16)) (String (hex_digit (n mod 16)) "").

(** [unsafeStringify(arr)] of the uuid package: the 8-4-4-4-12 text of the
    first sixteen bytes.  A missing byte indexes [byteToHex] with
    [undefined] and concatenates as the text of [undefined]. *)
Definition unsafeStringify (arr : list byte) : string :=
  let h (i : nat) :=
    match arr !! i with
    | Some b => byteToHex b
    | None => "undefined"
    end in
  h 0%nat +:+ h 1%nat +:+ h 2%nat +:+ h 3%nat +:+ "-" +:+
  h 4%nat +:+ h 5%nat +:+ "-" +:+
  h 6%nat +:+ h 7%nat +:+ "-" +:+
  h 8%nat +:+ h 9%nat +:+ "-" +:+
  h 10%nat +:+ h 11%nat +:+ h 12%nat +:+ h 13%nat +:+ h 14%nat +:+ h 15%nat.

(** [v4(options)] of the uuid package, called with one argument:
    [rnds = options.random || (options.rng || rng)()], then the version
    and variant bits are set and the bytes are rendered.  The handler
    passes a [Buffer] as [options]; a [Buffer] has no [random] and no [rng]
    property, so the bytes come from the package's generator, [rng_bytes]. *)
Definition v4 (options : list byte) (rng_bytes : list byte) : string :=
  let rnds := rng_bytes in
  let at_ (i : nat) : N := default 0%N (Byte.to_N <$> rnds !! i) in
  let rnds := <[6%nat := uint8 (N.lor (N.land (at_ 6%nat) 15) 64)]> rnds in
  let at_ (i : nat) : N := default 0%N (Byte.to_N <$> rnds !! i) in
  let rnds := <[8%nat := uint8 (N.lor (N.land (at_ 8%nat) 63) 128)]> rnds in
  unsafeStringify rnds.

(** ** The collaborators' objects *)

Record SecretsManagerClient := { sm_region : string }.
Record GetSecretValueCommand := { SecretId : string }.
Record MongoClientOptions := { useNewUrlParser : bool; useUnifiedTopology : bool }.
Record MongoClient := { mc_uri : JsValue; mc_options : MongoClientOptions }.
Record AwsKmsProvider :=
  { accessKeyId : JsValue; secretAccessKey : JsValue; sessionToken : JsValue }.
Record ClientEncryptionOptions :=
  { keyVaultNamespace : string; kmsProviders_aws : AwsKmsProvider }.
(** [ce_client] is the first constructor argument: a client, or [null]. *)
Record ClientEncryption :=
  { ce_client : option MongoClient; ce_options : ClientEncryptionOptions }.
Record MasterKey := { key : JsValue; region : JsValue }.
Record DataKeyOptions := { masterKey : MasterKey; keyAltNames : list JsValue }.
(** The BSON [Binary] that [createDataKey] resolves with. *)
Record Binary := { buffer : list byte }.

(** The handler's result, [{ statusCode, body }]. *)
Record Response := { statusCode : Z; body : JsValue }.

(** ** Calls, outcomes and the world *)

(** The calls that leave the module, with their arguments. *)
Inductive Event : Type :=
| New_SecretsManagerClient (config : SecretsManagerClient)
| New_GetSecretValueCommand (input : GetSecretValueCommand)
| SecretsManagerClient_send (client : SecretsManagerClient) (command : GetSecretValueCommand)
| New_MongoClient (uri : JsValue) (options : MongoClientOptions)
| MongoClient_connect (client : MongoClient)
| FromNodeProviderChain
| Provider_call
| New_ClientEncryption (client : option MongoClient) (options : ClientEncryptionOptions)
| ClientEncryption_createDataKey
    (instance : ClientEncryption) (provider : string) (options : DataKeyOptions)
| Console_log (v : JsValue).

(** What the collaborators do during one invocation: the outcome of each
    call site, and the bytes of the uuid package's generator.  A call site
    is reached at most once in an invocation, so an outcome per site covers
    a collaborator whose answer depends on its arguments.  [JSON.parse] is
    taken as given. *)
Record World := {
  secretsManagerClient_ctor : Outcome unit;
  getSecretValueCommand_ctor : Outcome unit;
  send : Outcome JsValue;
  JSON_parse : JsValue -> Outcome JsValue;
  mongoClient_ctor : Outcome unit;
  connect : Outcome unit;
  fromNodeProviderChain : Outcome unit;
  provider : Outcome JsValue;
  clientEncryption_ctor : Outcome unit;
  createDataKey : Outcome Binary;
  rng : list byte
}.

(** ** The monad: module bindings, exceptions, and the calls made *)

Definition M (S A : Type) : Type := S -> Outcome A * S * list Event.

Definition ret {S A} (a : A) : M S A := fun s => (Return a, s, []).
Definition throw {S A} (e : JsValue) : M S A := fun s => (Throw e, s, []).

Definition bind {S A B} (m : M S A) (f : A -> M S B) : M S B :=
  fun s =>
    match m s with
    | (Return a, s', t) => let '(o, s'', t') := f a s' in (o, s'', (t ++ t')%list)
    | (Throw e, s', t) => (Throw e, s', t)
    end.

(** [try { m } catch (err) { h err }] *)
Definition try_catch {S A} (m : M S A) (h : JsValue -> M S A) : M S A :=
  fun s =>
    match m s with
    | (Return a, s', t) => (Return a, s', t)
    | (Throw e, s', t) => let '(o, s'', t') := h e s' in (o, s'', (t ++ t')%list)
    end.

(** A call that leaves the module: it is recorded and has the outcome the
    world gives it. *)
Definition call {S A} (ev : Event) (o : Outcome A) : M S A := fun s => (o, s, [ev]).

(** A built-in's outcome: nothing is recorded. *)
Definition lift {S A} (o : Outcome A) : M S A := fun s => (o, s, []).

Definition get {S} : M S S := fun s => (Return s, s, []).
Definition put {S} (s' : S) : M S unit := fun _ => (Return tt, s', []).

Notation "x <- m ;; k" := (bind m (fun x => k))
  (at level 100, m at next level, right associativity).
Notation "m ;;; k" := (bind m (fun _ => k))
  (at level 100, right associativity).

Definition result {S A} (r : Outcome A * S * list Event) : Outcome A := r.1.1.
Definition bindings {S A} (r : Outcome A * S * list Event) : S := r.1.2.
Definition calls {S A} (r : Outcome A * S * list Event) : list Event := r.2.

(** ** Pieces both variants share *)

(** How V8 names a nullish value in a message. *)
Definition nullish_name (v : JsValue) : string :=
  match v with
  | JsNull => "null"
  | _ => "undefined"
  end.

(** [o.key]: a [TypeError] on [undefined] and [null]. *)
Definition get_prop {S} (o : JsValue) (key : string) : M S JsValue :=
  if is_nullish o then
    throw (TypeError ("Cannot read properties of " +:+ nullish_name o +:+
                      " (reading '" +:+ key +:+ "')"))
  else ret (lookup_prop o key).

(** [const { kmsKeyArn, kmsKeyRegion, dekAltName } = event;] *)
Definition destructure_event {S} (event : JsValue) : M S (JsValue * JsValue * JsValue) :=
  if is_nullish event then
    throw (TypeError ("Cannot destructure property 'kmsKeyArn' of 'event' as it is " +:+
                      nullish_name event +:+ "."))
  else ret (lookup_prop event "kmsKeyArn",
            lookup_prop event "kmsKeyRegion",
            lookup_prop event "dekAltName").

(** [!kmsKeyArn || !kmsKeyRegion || !dekAltName] *)
Definition missing_parameter (kmsKeyArn kmsKeyRegion dekAltName : JsValue) : bool :=
  negb (truthy kmsKeyArn) || negb (truthy kmsKeyRegion) || negb (truthy dekAltName).

(** The [Error] of lines 84-86 and 192-194, given the texts that the
    template literal made of the three parameters. *)
Definition parameter_error (kmsKeyArn kmsKeyRegion dekAltName : string) : JsValue :=
  JsError "Error"
    ("One of the parameter is not provided kmsKeyArn: " +:+ kmsKeyArn +:+
     ", kmsKeyRegion: " +:+ kmsKeyRegion +:+
     ", dekAltName: " +:+ dekAltName) [].

(** [throw new Error(`One of the parameter is not provided ...`)]: the
    template literal converts the three parameters in turn, and a
    conversion that throws is what is thrown. *)
Definition throw_parameter_error {S} (kmsKeyArn kmsKeyRegion dekAltName : JsValue) : M S unit :=
  arn <- lift (ToString kmsKeyArn) ;;
  region <- lift (ToString kmsKeyRegion) ;;
  name <- lift (ToString dekAltName) ;;
  throw (parameter_error arn region name).

Definition KEY_NAMESPACE : string := "encryption.__keyVault".

Definition mongo_options : MongoClientOptions :=
  {| useNewUrlParser := true; useUnifiedTopology := true |}.

(** [import { v4 as stringify } from "uuid"]: the name [stringify] is bound
    to the package's [v4]. *)
Definition stringify (w : World) (arg : list byte) : string := v4 arg (rng w).

(** The response of lines 100-105, once [JSON.stringify] has returned. *)
Definition success_response (uuidString : string) : Response :=
  {| statusCode := 200;
     body := stringified (JsObject [("dataKeyUUID", JsString uuidString)]) |}.

(** The response of lines 108-114, once both [JSON.stringify] have
    returned. *)
Definition error_response (err : JsValue) : Response :=
  {| statusCode := 200;
     body := stringified
               (JsObject [("message", JsString "error"); ("error", stringified err)]) |}.

(** [return { statusCode: 200, body: JSON.stringify({ dataKeyUUID: uuidString }) };] *)
Definition return_success {S} (uuidString : string) : M S Response :=
  body <- lift (JSON_stringify (JsObject [("dataKeyUUID", JsString uuidString)])) ;;
  ret {| statusCode := 200; body := body |}.

(** The [catch (err)] block of [lambdaHandler].  [console.log] returns on
    every value here: none has an accessor, the inspection prints a BigInt
    and marks a reference back to an enclosing object, and the console
    ignores the errors of its stream.  [JSON.stringify(err)] is evaluated
    before the object that holds it is serialized, and may throw; the
    outer [JSON.stringify] gets a string or [undefined] in the [error]
    property. *)
Definition catch_block {S} (err : JsValue) : M S Response :=
  call (Console_log err) (Return tt) ;;;
  error <- lift (JSON_stringify err) ;;
  body <- lift (JSON_stringify (JsObject [("message", JsString "error"); ("error", error)])) ;;
  ret {| statusCode := 200; body := body |}.

(** What the [catch] block comes to: the error envelope, or what
    [JSON.stringify(err)] threw. *)
Definition caught (err : JsValue) : Outcome Response :=
  match JSON_stringify err with
  | Return _ => Return (error_response err)
  | Throw e => Throw e
  end.

(** ** First variant: the URI comes from Secrets Manager (lines 1-122) *)

Module SecretStore.

(** No module-level [let] binding: the state is trivial. *)
Abbreviation St := unit (only parsing).

Section Handler.
Variable w : World.

Definition getSecretManagerData : M St JsValue :=
  let config := {| sm_region := "ap-south-1" |} in
  call (New_SecretsManagerClient config) (secretsManagerClient_ctor w) ;;;
  let secretsManagerClient := config in
  let input := {| SecretId := "staging-platform-pii-lambda" |} in
  call (New_GetSecretValueCommand input) (getSecretValueCommand_ctor w) ;;;
  let secretsCommand := input in
  secretsResponse <-
    call (SecretsManagerClient_send secretsManagerClient secretsCommand) (send w) ;;
  secretString <- get_prop secretsResponse "SecretString" ;;
  lift (JSON_parse w secretString).

Definition initializeMongodb (uri : JsValue) : M St MongoClient :=
  try_catch
    (call (New_MongoClient uri mongo_options) (mongoClient_ctor w) ;;;
     let client := {| mc_uri := uri; mc_options := mongo_options |} in
     call (MongoClient_connect client) (connect w) ;;;
     ret client)
    (fun err => throw err).

Definition initialize (dbClient : MongoClient) : M St ClientEncryption :=
  call FromNodeProviderChain (fromNodeProviderChain w) ;;;
  aws <- call Provider_call (provider w) ;;
  accessKeyId <- get_prop aws "accessKeyId" ;;
  secretAccessKey <- get_prop aws "secretAccessKey" ;;
  sessionToken <- get_prop aws "sessionToken" ;;
  let options :=
    {| keyVaultNamespace := KEY_NAMESPACE;
       kmsProviders_aws :=
         {| accessKeyId := accessKeyId;
            secretAccessKey := secretAccessKey;
            sessionToken := sessionToken |} |} in
  call (New_ClientEncryption (Some dbClient) options) (clientEncryption_ctor w) ;;;
  let encryptionInstance := {| ce_client := Some dbClient; ce_options := options |} in
  ret encryptionInstance.

(** The [try] block of [lambdaHandler], lines 81-105. *)
Definition try_block (event : JsValue) : M St Response :=
  params <- destructure_event event ;;
  let '(kmsKeyArn, kmsKeyRegion, dekAltName) := params in
  secrets <- getSecretManagerData ;;
  (if missing_parameter kmsKeyArn kmsKeyRegion dekAltName
   then throw_parameter_error kmsKeyArn kmsKeyRegion dekAltName
   else ret tt) ;;;
  uri <- get_prop secrets "MONGODB_URI" ;;
  dbClient <- initializeMongodb uri ;;
  encryptionInstance <- initialize dbClient ;;
  let masterKey := {| key := kmsKeyArn; region := kmsKeyRegion |} in
  dataKey <-
    call (ClientEncryption_createDataKey encryptionInstance "aws"
            {| masterKey := masterKey; keyAltNames := [dekAltName] |})
         (createDataKey w) ;;
  let uuidString := stringify w (buffer dataKey) in
  call (Console_log (JsString uuidString)) (Return tt) ;;;
  return_success uuidString.

Definition lambdaHandler (event : JsValue) : M St Response :=
  try_catch (try_block event) catch_block.

End Handler.

(** One invocation. *)
Definition invoke (w : World) (event : JsValue) : Outcome Response * unit * list Event :=
lambdaHandler w event tt.

End SecretStore.

(** ** Second variant: the URI comes from the environment (lines 123-230) *)

Module EnvVar.

(** The module-level bindings, lines 133-136: the constant [uri] and the
    two [let] bindings. *)
Record St := {
  uri : JsValue;
  encryptionInstance : option ClientEncryption;
  dbClient : option MongoClient
}.

(** The bindings once the module is loaded:
    [const uri = process.env.MONGODB_URI;], [let encryptionInstance = null;]
    and [let dbClient = null;]. *)
Definition loaded (process_env_MONGODB_URI : JsValue) : St :=
  {| uri := process_env_MONGODB_URI; encryptionInstance := None; dbClient := None |}.

Section Handler.
Variable w : World.

Definition initializeMongodb : M St MongoClient :=
  st <- get ;;
  try_catch
    (call (New_MongoClient (uri st) mongo_options) (mongoClient_ctor w) ;;;
     let client := {| mc_uri := uri st; mc_options := mongo_options |} in
     call (MongoClient_connect client) (connect w) ;;;
     ret client)
    (fun err => throw err).

Definition initialize : M St ClientEncryption :=
  call FromNodeProviderChain (fromNodeProviderChain w) ;;;
  aws <- call Provider_call (provider w) ;;
  st <- get ;;
  accessKeyId <- get_prop aws "accessKeyId" ;;
  secretAccessKey <- get_prop aws "secretAccessKey" ;;
  sessionToken <- get_prop aws "sessionToken" ;;
  let options :=
    {| keyVaultNamespace := KEY_NAMESPACE;
       kmsProviders_aws :=
         {| accessKeyId := accessKeyId;
            secretAccessKey := secretAccessKey;
            sessionToken := sessionToken |} |} in
  call (New_ClientEncryption (dbClient st) options) (clientEncryption_ctor w) ;;;
  let instance := {| ce_client := dbClient st; ce_options := options |} in
  put {| uri := uri st; encryptionInstance := Some instance; dbClient := dbClient st |} ;;;
  ret instance.

(** The [try] block of [lambdaHandler], lines 190-213. *)
Definition try_block (event : JsValue) : M St Response :=
  params <- destructure_event event ;;
  let '(kmsKeyArn, kmsKeyRegion, dekAltName) := params in
  (if missing_parameter kmsKeyArn kmsKeyRegion dekAltName
   then throw_parameter_error kmsKeyArn kmsKeyRegion dekAltName
   else ret tt) ;;;
  initializeMongodb ;;;
  initialize ;;;
  let masterKey := {| key := kmsKeyArn; region := kmsKeyRegion |} in
  st <- get ;;
  instance <-
    match encryptionInstance st with
    | Some i => ret i
    | None => throw (TypeError "Cannot read properties of null (reading 'createDataKey')")
    end ;;
  dataKey <-
    call (ClientEncryption_createDataKey instance "aws"
            {| masterKey := masterKey; keyAltNames := [dekAltName] |})
         (createDataKey w) ;;
  let uuidString := stringify w (buffer dataKey) in
  call (Console_log (JsString uuidString)) (Return tt) ;;;
  return_success uuidString.

Definition lambdaHandler (event : JsValue) : M St Response :=
  try_catch (try_block event) catch_block.

End Handler.

(** One invocation, from the bindings the previous one left. *)
Definition invoke (w : World) (event : JsValue) (st : St)
: Outcome Response * St * list Event :=
lambdaHandler w event st.

(** Invocations in sequence in one execution context: each one meets its
  own world and event and starts from the bindings left by the one
  before.  The result is the last bindings and all the calls made. *)
Fixpoint invocations (st : St) (reqs : list (World * JsValue)) : St * list Event :=
match reqs with
| [] => (st, [])
| (w, event) :: rest =>
    let r := invoke w event st in
    let '(st', t') := invocations (bindings r) rest in
    (st', (calls r ++ t')%list)
end.

End EnvVar.

(** ** Decoding a UUID text, and searching a text *)

Definition hex_value (c : ascii) : option N :=
  let n := N_of_ascii c in
  if (48 <=? n)%N && (n <=? 57)%N then Some (n - 48)%N
  else if (97 <=? n)%N && (n <=? 102)%N then Some (n - 87)%N
  else if (65 <=? n)%N && (n <=? 70)%N then Some (n - 55)%N
  else None.

Fixpoint hex_pairs (s : string) : option (list byte) :=
  match s with
  | EmptyString => Some []
  | String a (String b rest) =>
      match hex_value a, hex_value b, hex_pairs rest with
      | Some hi, Some lo, Some bytes => Some (uint8 (16 * hi + lo) :: bytes)
      | _, _, _ => None
      end
  | String _ EmptyString => None
  end.

(** The inverse of [unsafeStringify] (the uuid package's [parse], without
    its check of the version digit): the sixteen bytes of an 8-4-4-4-12
    text, [None] when the text has another shape. *)
Definition parse (uuid : string) : option (list byte) :=
  let dash (i : nat) := String.eqb (substring i 1 uuid) "-" in
  if (String.length uuid =? 36)%nat && dash 8%nat && dash 13%nat && dash 18%nat && dash 23%nat
  then hex_pairs (substring 0 8 uuid +:+ substring 9 4 uuid +:+ substring 14 4 uuid +:+
                  substring 19 4 uuid +:+ substring 24 12 uuid)
  else None.

(** [text.includes(word)] *)
Definition includes (text word : string) : bool :=
  match String.index 0 word text with
  | Some _ => true
  | None => false
  end.

(** ** Requests and worlds used as instances *)

(** The two example requests of the specification. *)
Definition valid_request : JsValue :=
  JsObject [("kmsKeyArn", JsString "arn:aws:kms:ap-south-1:111122223333:key/abc");
            ("kmsKeyRegion", JsString "ap-south-1");
            ("dekAltName", JsString "service-x-dek")].

Definition empty_arn_request : JsValue :=
  JsObject [("kmsKeyArn", JsString "");
            ("kmsKeyRegion", JsString "ap-south-1");
            ("dekAltName", JsString "x")].

Definition secret_uri : string := "mongodb://pii-db.internal:27017".
Definition secret : JsValue := JsObject [("MONGODB_URI", JsString secret_uri)].
Definition secret_text : string :=
  match serialize secret with
  | Text text => text
  | _ => ""
  end.

(** [JSON.parse] where the worlds below need it: on the secret's text. *)
Definition parse_secret (text : JsValue) : Outcome JsValue :=
  match text with
  | JsString s =>
      if String.eqb s secret_text then Return secret
      else Throw (JsError "SyntaxError" "Unexpected token in JSON" [])
  | _ => Throw (JsError "SyntaxError" "Unexpected token in JSON" [])
  end.

Definition secret_response : JsValue :=
  JsObject [("Name", JsString "staging-platform-pii-lambda");
            ("SecretString", JsString secret_text)].

Definition credentials : JsValue :=
  JsObject [("accessKeyId", JsString "ASIAEXAMPLEKEYID");
            ("secretAccessKey", JsString "examplesecret");
            ("sessionToken", JsString "exampletoken")].

(** A key id as the key vault generates them, 9f3c1a52-7d4e-4b8a-a1c6-2e5f70b9d3e4. *)
Definition key_id : list byte :=
  [x9f; x3c; x1a; x52; x7d; x4e; x4b; x8a; xa1; xc6; x2e; x5f; x70; xb9; xd3; xe4].

(** Sixteen bytes of the uuid package's generator. *)
Definition random_bytes : list byte :=
  [x52; x0b; xe7; x31; x06; xc4; x9d; x28; x63; xf0; x1e; xa5; x77; x4c; x09; xbb].

(** Errors as the AWS SDK and the MongoDB driver build them: [name] and
    the fields they add are own enumerable properties. *)
Definition access_denied : JsValue :=
  JsError "AccessDeniedException" "User is not authorized to perform secretsmanager:GetSecretValue"
    [("name", JsString "AccessDeniedException"); ("$fault", JsString "client")].

Definition server_selection_error : JsValue :=
  JsError "MongoServerSelectionError" "connect ECONNREFUSED 10.0.0.12:27017"
    [("name", JsString "MongoServerSelectionError")].

Definition credentials_error : JsValue :=
  JsError "CredentialsProviderError" "Could not load credentials from any providers"
    [("name", JsString "CredentialsProviderError"); ("tryNextLink", JsBool false)].

(** A world in which every constructor returns, given what the four
    network calls do. *)
Definition backend (send_ : Outcome JsValue) (connect_ : Outcome unit)
    (provider_ : Outcome JsValue) (createDataKey_ : Outcome Binary) : World :=
  {| secretsManagerClient_ctor := Return tt;
     getSecretValueCommand_ctor := Return tt;
     send := send_;
     JSON_parse := parse_secret;
     mongoClient_ctor := Return tt;
     connect := connect_;
     fromNodeProviderChain := Return tt;
     provider := provider_;
     clientEncryption_ctor := Return tt;
     createDataKey := createDataKey_;
     rng := random_bytes |}.

(** The second variant, loaded with the same URI in the environment as
    the secret holds. *)
Definition freshly_loaded : EnvVar.St := EnvVar.loaded (JsString secret_uri).

Definition reachable : World :=
  backend (Return secret_response) (Return tt) (Return credentials)
          (Return {| buffer := key_id |}).

Definition secret_store_down : World :=
  backend (Throw access_denied) (Return tt) (Return credentials)
          (Return {| buffer := key_id |}).

Definition database_down : World :=
  backend (Return secret_response) (Throw server_selection_error) (Return credentials)
          (Return {| buffer := key_id |}).

Definition credentials_missing : World :=
  backend (Return secret_response) (Return tt) (Throw credentials_error)
          (Return {| buffer := key_id |}).

(** ** Properties of runs *)

(** The call hands [null] to the encryption client, or goes to an
    encryption client that was handed [null]. *)
Definition hands_null (e : Event) : Prop :=
  match e with
  | New_ClientEncryption client _ => client = None
  | ClientEncryption_createDataKey instance _ _ => ce_client instance = None
  | _ => True
  end.

Definition is_createDataKey (e : Event) : bool :=
  match e with
  | ClientEncryption_createDataKey _ _ _ => true
  | _ => false
  end.

(** A call that opens the database connection: the construction of a
    [MongoClient], or its [connect]. *)
Definition is_database_call (e : Event) : bool :=
  match e with
  | New_MongoClient _ _ | MongoClient_connect _ => true
  | _ => false
  end.

(** A call to the secret store. *)
Definition is_secret_store_call (e : Event) : bool :=
  match e with
  | New_SecretsManagerClient _ | New_GetSecretValueCommand _
  | SecretsManagerClient_send _ _ => true
  | _ => false
  end.

(** The value is absent ([undefined]) or the empty string. *)
Definition absent_or_empty (v : JsValue) : Prop := v = JsUndefined ∨ v = JsString "".

(** The call with the URI and the client handle left out: what the two
    variants can have in common. *)
Definition without_handles (e : Event) : Event :=
  match e with
  | New_MongoClient _ options => New_MongoClient JsUndefined options
  | MongoClient_connect client =>
      MongoClient_connect {| mc_uri := JsUndefined; mc_options := mc_options client |}
  | New_ClientEncryption _ options => New_ClientEncryption None options
  | ClientEncryption_createDataKey instance provider options =>
      ClientEncryption_createDataKey
        {| ce_client := None; ce_options := ce_options instance |} provider options
  | _ => e
  end.

(** The secret store answers: the three calls return, and both the
    response and the parsed secret have properties to read. *)
Definition secret_store_answers (w : World) : Prop :=
  secretsManagerClient_ctor w = Return tt ∧
  getSecretValueCommand_ctor w = Return tt ∧
  ∃ response secrets : JsValue,
    send w = Return response ∧ is_nullish response = false ∧
    JSON_parse w (lookup_prop response "SecretString") = Return secrets ∧
    is_nullish secrets = false.

(** Establishing the connection, [initializeMongodb], fails with [e]: the
    [MongoClient] constructor throws it, or [connect] rejects with it. *)
Definition connection_fails (w : World) (e : JsValue) : Prop :=
  mongoClient_ctor w = Throw e ∨ (mongoClient_ctor w = Return tt ∧ connect w = Throw e).



(** If the call is a key creation, it is the one the request asks for:
    provider aws, the master key and the alternate name of [event], on an
    instance bound to the key vault namespace. *)
Definition key_creation_for (event : JsValue) (e : Event) : Prop :=
  match e with
  | ClientEncryption_createDataKey instance provider options =>
      provider = "aws" ∧
      masterKey options = {| key := lookup_prop event "kmsKeyArn";
                             region := lookup_prop event "kmsKeyRegion" |} ∧
      keyAltNames options = [lookup_prop event "dekAltName"] ∧
      keyVaultNamespace (ce_options instance) = "encryption.__keyVault"
  | _ => True
  end.

(** The text of a returned response's body. *)
Definition body_text (o : Outcome Response) : string :=
  match o with
  | Return {| body := JsString text |} => text
  | _ => ""
  end.

(** What the handler throws for a missing parameter: the [Error] whose
    message holds the texts of the three parameters, or the [TypeError] of
    the first of them that the template literal cannot convert. *)
Definition validation_failure (kmsKeyArn kmsKeyRegion dekAltName : JsValue) : JsValue :=
  match ToString kmsKeyArn with
  | Throw e => e
  | Return arn =>
      match ToString kmsKeyRegion with
      | Throw e => e
      | Return region =>
          match ToString dekAltName with
          | Throw e => e
          | Return name => parameter_error arn region name
          end
      end
  end.

(** The value holds no BigInt and no object that holds itself. *)
Fixpoint plain (v : JsValue) : bool :=
  match v with
  | JsBigInt _ | JsCircular _ => false
  | JsArray items => forallb plain items
  | JsObject props => forallb (fun kv => match kv with (_, x) => plain x end) props
  | JsError _ _ props => forallb (fun kv => match kv with (_, x) => plain x end) props
  | _ => true
  end.

(** Errors that [JSON.stringify] cannot serialize: one that holds a BigInt
    among its properties, and one that holds a request object which refers
    back to itself. *)
Definition error_with_BigInt : JsValue :=
  JsError "Error" "connection closed"
    [("code", JsString "ECONNRESET"); ("bytesRead", JsBigInt 0)].

Definition error_with_circle : JsValue :=
  JsError "Error" "socket hang up"
    [("code", JsString "ECONNRESET");
     ("request", JsCircular [("method", Some (JsString "POST")); ("self", None)])].

Definition database_rejects_with_BigInt : World :=
  backend (Return secret_response) (Throw error_with_BigInt) (Return credentials)
          (Return {| buffer := key_id |}).

Definition credentials_reject_with_circle : World :=
  backend (Return secret_response) (Return tt) (Throw error_with_circle)
          (Return {| buffer := key_id |}).

(** A secret whose text is the JSON text of [null], and the world that
    serves it. *)
Definition parse_null (text : JsValue) : Outcome JsValue :=
  match text with
  | JsString s =>
      if String.eqb s "null" then Return JsNull
      else Throw (JsError "SyntaxError" "Unexpected token in JSON" [])
  | _ => Throw (JsError "SyntaxError" "Unexpected token in JSON" [])
  end.

Definition secret_is_null : World :=
  {| secretsManagerClient_ctor := Return tt;
     getSecretValueCommand_ctor := Return tt;
     send := Return (JsObject [("SecretString", JsString "null")]);
     JSON_parse := parse_null;
     mongoClient_ctor := Return tt;
     connect := Return tt;
     fromNodeProviderChain := Return tt;
     provider := Return credentials;
     clientEncryption_ctor := Return tt;
     createDataKey := Return {| buffer := key_id |};
     rng := random_bytes |}.

(** A request whose alternate name is an object with an own [toString]
    property, which no template literal can convert. *)
Definition unprintable_request : JsValue :=
  JsObject [("kmsKeyArn", JsString "");
            ("kmsKeyRegion", JsString "ap-south-1");
            ("dekAltName", JsObject [("toString", JsNull)])].

(** ** Further properties of runs *)

(** The call or built-in returned. *)
Definition returns {A} (o : Outcome A) : bool :=
  match o with
  | Return _ => true
  | Throw _ => false
  end.

(** An outcome of the [try] block after which the invocation returns: a
    response, or a thrown value that [JSON.stringify] can serialize. *)
Definition serializes (o : Outcome Response) : bool :=
  match o with
  | Return _ => true
  | Throw err => returns (JSON_stringify err)
  end.

(** It returned a value that has properties to read. *)
Definition answers (o : Outcome JsValue) : bool :=
  match o with
  | Return v => negb (is_nullish v)
  | Throw _ => false
  end.

(** Where a call stands in the text of the handler. *)
Definition call_rank (e : Event) : nat :=
  match e with
  | New_SecretsManagerClient _ => 0
  | New_GetSecretValueCommand _ => 1
  | SecretsManagerClient_send _ _ => 2
  | New_MongoClient _ _ => 3
  | MongoClient_connect _ => 4
  | FromNodeProviderChain => 5
  | Provider_call => 6
  | New_ClientEncryption _ _ => 7
  | ClientEncryption_createDataKey _ _ _ => 8
  | Console_log _ => 9
  end.

Fixpoint increasing (ranks : list nat) : bool :=
  match ranks with
  | a :: (b :: _) as rest => (a <? b)%nat && increasing rest
  | _ => true
  end.

Definition is_log (e : Event) : bool :=
  match e with
  | Console_log _ => true
  | _ => false
  end.

Definition is_new_ClientEncryption (e : Event) : bool :=
  match e with
  | New_ClientEncryption _ _ => true
  | _ => false
  end.

(** Every step of the first variant's [try] block goes through: the event
    and what the secret store, [JSON.parse] and the credential chain give
    have properties to read, no parameter is missing, and every call
    returns. *)
Definition SecretStore_steps_return (w : World) (event : JsValue) : bool :=
  negb (is_nullish event) &&
  returns (secretsManagerClient_ctor w) && returns (getSecretValueCommand_ctor w) &&
  match send w with
  | Return response =>
      negb (is_nullish response) &&
      answers (JSON_parse w (lookup_prop response "SecretString"))
  | Throw _ => false
  end &&
  negb (missing_parameter (lookup_prop event "kmsKeyArn") (lookup_prop event "kmsKeyRegion")
          (lookup_prop event "dekAltName")) &&
  returns (mongoClient_ctor w) && returns (connect w) &&
  returns (fromNodeProviderChain w) && answers (provider w) &&
  returns (clientEncryption_ctor w) && returns (createDataKey w).

(** The same for the second variant, which has no secret to fetch. *)
Definition EnvVar_steps_return (w : World) (event : JsValue) : bool :=
  negb (is_nullish event) &&
  negb (missing_parameter (lookup_prop event "kmsKeyArn") (lookup_prop event "kmsKeyRegion")
          (lookup_prop event "dekAltName")) &&
  returns (mongoClient_ctor w) && returns (connect w) &&
  returns (fromNodeProviderChain w) && answers (provider w) &&
  returns (clientEncryption_ctor w) && returns (createDataKey w).

(** If the call constructs or connects a [MongoClient], it is with [uri]
    and the two fixed options. *)
Definition connects_to (uri : JsValue) (e : Event) : Prop :=
  match e with
  | New_MongoClient u options => u = uri ∧ options = mongo_options
  | MongoClient_connect client => client = {| mc_uri := uri; mc_options := mongo_options |}
  | _ => True
  end.

(** If the call constructs a [ClientEncryption], its options are the key
    vault namespace and the three fields of [aws], as they are. *)
Definition encrypts_with (aws : JsValue) (e : Event) : Prop :=
  match e with
  | New_ClientEncryption _ options =>
      options = {| keyVaultNamespace := KEY_NAMESPACE;
                   kmsProviders_aws :=
                     {| accessKeyId := lookup_prop aws "accessKeyId";
                        secretAccessKey := lookup_prop aws "secretAccessKey";
                        sessionToken := lookup_prop aws "sessionToken" |} |}
  | _ => True
  end.

(** The two worlds differ at most in what the secret store, [JSON.parse]
    and the credential chain give. *)
Definition same_but_secrets (w w' : World) : Prop :=
  secretsManagerClient_ctor w = secretsManagerClient_ctor w' ∧
  getSecretValueCommand_ctor w = getSecretValueCommand_ctor w' ∧
  mongoClient_ctor w = mongoClient_ctor w' ∧
  connect w = connect w' ∧
  fromNodeProviderChain w = fromNodeProviderChain w' ∧
  clientEncryption_ctor w = clientEncryption_ctor w' ∧
  createDataKey w = createDataKey w' ∧
  rng w = rng w'.

(** The secret store and the credential chain both answer. *)
Definition secrets_resolve (w : World) : Prop :=
  secret_store_answers w ∧ ∃ aws, provider w = Return aws ∧ is_nullish aws = false.

(** A secret that holds no [MONGODB_URI], and the world that serves it. *)
Definition parse_empty_object (text : JsValue) : Outcome JsValue :=
  match text with
  | JsString s =>
      if String.eqb s "{}" then Return (JsObject [])
      else Throw (JsError "SyntaxError" "Unexpected token in JSON" [])
  | _ => Throw (JsError "SyntaxError" "Unexpected token in JSON" [])
  end.

Definition secret_without_uri : World :=
  {| secretsManagerClient_ctor := Return tt;
     getSecretValueCommand_ctor := Return tt;
     send := Return (JsObject [("SecretString", JsString "{}")]);
     JSON_parse := parse_empty_object;
     mongoClient_ctor := Return tt;
     connect := Throw server_selection_error;
     fromNodeProviderChain := Return tt;
     provider := Return credentials;
     clientEncryption_ctor := Return tt;
     createDataKey := Return {| buffer := key_id |};
     rng := random_bytes |}.

(** Credentials without a session token, as long-term keys are. *)
Definition long_term_credentials : JsValue :=
  JsObject [("accessKeyId", JsString "AKIAEXAMPLEKEYID");
            ("secretAccessKey", JsString "examplesecret")].

(** A request whose parameters are truthy but no strings. *)
Definition untyped_request : JsValue :=
  JsObject [("kmsKeyArn", JsNumber "123");
            ("kmsKeyRegion", JsBool true);
            ("dekAltName", JsArray [JsString "a"])].

(** A request whose parameters are present but falsy. *)
Definition falsy_request : JsValue :=
  JsObject [("kmsKeyArn", JsString "arn:aws:kms:ap-south-1:111122223333:key/abc");
            ("kmsKeyRegion", JsNumber "0");
            ("dekAltName", JsString "x")].

(** The reachable backend with another secret and other credentials. *)
Definition reachable_elsewhere : World :=
  {| secretsManagerClient_ctor := Return tt;
     getSecretValueCommand_ctor := Return tt;
     send := Return (JsObject [("SecretString", JsString "{}")]);
     JSON_parse := parse_empty_object;
     mongoClient_ctor := Return tt;
     connect := Return tt;
     fromNodeProviderChain := Return tt;
     provider := Return long_term_credentials;
     clientEncryption_ctor := Return tt;
     createDataKey := Return {| buffer := key_id |};
     rng := random_bytes |}.

(** The bindings [st] with another encryption instance left in them. *)
Definition with_instance (st : EnvVar.St) (left : option ClientEncryption) : EnvVar.St :=
  {| EnvVar.uri := EnvVar.uri st;
     EnvVar.encryptionInstance := left;
     EnvVar.dbClient := EnvVar.dbClient st |}.

(** ** The text of a version 4 UUID *)

Definition is_lower_hex (c : ascii) : bool :=
  let n := N_of_ascii c in
  ((48 <=? n)%N && (n <=? 57)%N) || ((97 <=? n)%N && (n <=? 102)%N).

Fixpoint all_lower_hex (s : string) : bool :=
  match s with
  | EmptyString => true
  | String c rest => is_lower_hex c && all_lower_hex rest
  end.

(** 36 characters in groups of 8, 4, 4, 4 and 12 lower-case hexadecimal
    digits with hyphens between, the third group starting with 4 and the
    fourth with 8, 9, a or b. *)
Definition uuid_v4_format (s : string) : bool :=
  (String.length s =? 36)%nat &&
  all_lower_hex (substring 0 8 s) && String.eqb (substring 8 1 s) "-" &&
  all_lower_hex (substring 9 4 s) && String.eqb (substring 13 1 s) "-" &&
  all_lower_hex (substring 14 4 s) && String.eqb (substring 18 1 s) "-" &&
  all_lower_hex (substring 19 4 s) && String.eqb (substring 23 1 s) "-" &&
  all_lower_hex (substring 24 12 s) &&
  String.eqb (substring 14 1 s) "4" &&
  (String.eqb (substring 19 1 s) "8" || String.eqb (substring 19 1 s) "9" ||
   String.eqb (substring 19 1 s) "a" || String.eqb (substring 19 1 s) "b").

(** ** Loading the module *)

(** What the host gives when the module is loaded: the environment
    variables [ENV] and [MONGODB_URI] (a string, or [undefined] when not
    set) and the outcome of reading event.json. *)
Record Host := {
  ENV : JsValue;
  MONGODB_URI : JsValue;
  readFileSync : Outcome JsValue
}.

(** The calls made while the module is loaded: the file read, and the
    calls of the handler it starts. *)
Inductive LoadCall : Type :=
| Fs_readFileSync (path encoding : string)
| From_handler (e : Event).

(** [v === s] for a string [s]. *)
Definition strict_equals (v : JsValue) (s : string) : bool :=
  match v with
  | JsString t => String.eqb t s
  | _ => false
  end.

(** The block at the end of each variant (lines 118-122 and 226-230):
    under [ENV === "local"] read event.json, parse it, and call the
    handler on it without awaiting or reading its result.  [run_handler]
    is the variant's handler from the bindings the module has once its
    declarations are evaluated.  The handler started here runs on after
    the module has loaded; the result is whether loading returned, and the
    bindings and the calls once that handler has settled.  A handler that
    rejects leaves a promise nobody awaits: that is no throw of the
    block. *)
Definition load_block {S} (h : Host) (w : World) (st : S)
    (run_handler : JsValue → S → Outcome Response * S * list Event)
  : Outcome unit * S * list LoadCall :=
  if strict_equals (ENV h) "local" then
    let read := Fs_readFileSync "./event.json" "utf8" in
    match readFileSync h with
    | Throw e => (Throw e, st, [read])
    | Return eventsStringified =>
        match JSON_parse w eventsStringified with
        | Throw e => (Throw e, st, [read])
        | Return events =>
            let r := run_handler events st in
            (Return tt, bindings r, read :: map From_handler (calls r))
        end
    end
  else (Return tt, st, []).

Definition load_result {S} (r : Outcome unit * S * list LoadCall) : Outcome unit := r.1.1.
Definition load_bindings {S} (r : Outcome unit * S * list LoadCall) : S := r.1.2.
Definition load_calls {S} (r : Outcome unit * S * list LoadCall) : list LoadCall := r.2.

Definition SecretStore_load (h : Host) (w : World) : Outcome unit * unit * list LoadCall :=
  load_block h w tt (SecretStore.lambdaHandler w).

Definition EnvVar_load (h : Host) (w : World) : Outcome unit * EnvVar.St * list LoadCall :=
  load_block h w (EnvVar.loaded (MONGODB_URI h)) (EnvVar.lambdaHandler w).

Definition is_from_handler (c : LoadCall) : bool :=
  match c with
  | From_handler _ => true
  | Fs_readFileSync _ _ => false
  end.

(** A host in local mode whose event.json holds an object with none of
    the parameters, one in local mode without the file, and one that is
    not in local mode. *)
Definition local_host : Host :=
  {| ENV := JsString "local"; MONGODB_URI := JsString secret_uri;
     readFileSync := Return (JsString secret_text) |}.

Definition no_such_file : JsValue :=
  JsError "Error" "ENOENT: no such file or directory, open './event.json'"
    [("errno", JsNumber "-2"); ("code", JsString "ENOENT");
     ("syscall", JsString "open"); ("path", JsString "./event.json")].

Definition local_host_without_file : Host :=
  {| ENV := JsString "local"; MONGODB_URI := JsString secret_uri;
     readFileSync := Throw no_such_file |}.

Definition deployed_host : Host :=
  {| ENV := JsUndefined; MONGODB_URI := JsString secret_uri;
     readFileSync := Return (JsString secret_text) |}.

(** * Theorems *)

(** ** The catch block and the last statement of the try block *)

Lemma JSON_stringify_stringified (v : JsValue) (x : JsValue) :
  JSON_stringify v = Return x → x = stringified v.
Proof.
  unfold JSON_stringify, stringified. destruct (serialize v); intros H; by simplify_eq.
Qed.

Lemma return_success_eq {S} (uuidString : string) (s : S) :
  return_success uuidString s = (Return (success_response uuidString), s, []).
Proof. reflexivity. Qed.

Lemma catch_block_eq {S} (err : JsValue) (s : S) :
  catch_block err s = (caught err, s, [Console_log err]).
Proof.
  unfold catch_block, caught, error_response, stringified, JSON_stringify, bind, call, lift, ret.
  destruct (serialize err); reflexivity.
Qed.

(** ** Symbolic execution of the handlers *)

Ltac unfold_handler :=
  cbv beta iota zeta delta
    [SecretStore.invoke SecretStore.lambdaHandler SecretStore.try_block
     SecretStore.getSecretManagerData SecretStore.initializeMongodb SecretStore.initialize
     EnvVar.invoke EnvVar.lambdaHandler EnvVar.try_block EnvVar.initializeMongodb
     EnvVar.initialize
     try_catch bind call ret throw lift get put get_prop destructure_event
     throw_parameter_error result bindings calls fst snd];
  cbn [is_nullish EnvVar.encryptionInstance EnvVar.dbClient EnvVar.uri].

Ltac step :=
  match goal with
  | |- context [return_success ?u ?s] => rewrite (return_success_eq u s)
  | |- context [catch_block ?e ?s] => rewrite (catch_block_eq e s)
  | |- context [if ?b then _ else _] => destruct b eqn:?
  | |- context [match ?x with Return _ => _ | Throw _ => _ end] =>
      destruct x eqn:?
  end;
  cbv beta iota zeta delta [fst snd];
  cbn [EnvVar.encryptionInstance EnvVar.dbClient EnvVar.uri].

Ltac split_outcomes := repeat step.

Ltac run := unfold_handler; split_outcomes.


(** Rewrite with the outcomes that the symbolic execution has fixed. *)
Ltac rewrite_outcomes :=
  repeat match goal with
         | H : ?x = _ |- context [?x] => rewrite H
         end.

(** ** The monad *)

Lemma try_catch_result {S} (m : M S Response) (s : S) :
  result (try_catch m catch_block s)
    = match result (m s) with
      | Return r => Return r
      | Throw err => caught err
      end.
Proof.
  unfold try_catch, result. destruct (m s) as [[[r | e] s'] t]; simpl; [reflexivity |].
  by rewrite catch_block_eq.
Qed.

Lemma SecretStore_try_block_success (w : World) (event : JsValue) (r : Response) :
  result (SecretStore.try_block w event tt) = Return r →
  ∃ key, createDataKey w = Return key ∧ r = success_response (stringify w (buffer key)).
Proof.
  run; intros H; try discriminate H; injection H as <-; by eexists.
Qed.

Lemma EnvVar_try_block_success (w : World) (event : JsValue) (st : EnvVar.St) (r : Response) :
  result (EnvVar.try_block w event st) = Return r →
  ∃ key, createDataKey w = Return key ∧ r = success_response (stringify w (buffer key)).
Proof.
  run; intros H; try discriminate H; injection H as <-; by eexists.
Qed.

(** ** Values that [JSON.stringify] serializes *)

Section JsValue_induction.
Variable P : JsValue → Prop.
Hypothesis Hundefined : P JsUndefined.
Hypothesis Hnull : P JsNull.
Hypothesis Hbool : ∀ b, P (JsBool b).
Hypothesis Hnumber : ∀ text, P (JsNumber text).
Hypothesis Hbigint : ∀ n, P (JsBigInt n).
Hypothesis Hstring : ∀ s, P (JsString s).
Hypothesis Harray : ∀ items, Forall P items → P (JsArray items).
Hypothesis Hobject : ∀ props, Forall (λ kv, P kv.2) props → P (JsObject props).
Hypothesis Hcircular :
  ∀ props, Forall (λ kv, match kv.2 with Some x => P x | None => True end) props →
           P (JsCircular props).
Hypothesis Herror : ∀ name message props, Forall (λ kv, P kv.2) props →
                                          P (JsError name message props).

Fixpoint JsValue_nested_ind (v : JsValue) : P v :=
  match v with
  | JsUndefined => Hundefined
  | JsNull => Hnull
  | JsBool b => Hbool b
  | JsNumber text => Hnumber text
  | JsBigInt n => Hbigint n
  | JsString s => Hstring s
  | JsArray items =>
      Harray items
        ((fix all (l : list JsValue) : Forall P l :=
            match l with
            | [] => Forall_nil_2 P
            | x :: rest => Forall_cons_2 P x rest (JsValue_nested_ind x) (all rest)
            end) items)
  | JsObject props =>
      Hobject props
        ((fix all (l : list (string * JsValue)) : Forall (λ kv, P kv.2) l :=
            match l with
            | [] => Forall_nil_2 _
            | (k, x) :: rest => Forall_cons_2 _ (k, x) rest (JsValue_nested_ind x) (all rest)
            end) props)
  | JsCircular props =>
      Hcircular props
        ((fix all (l : list (string * option JsValue))
            : Forall (λ kv, match kv.2 with Some x => P x | None => True end) l :=
            match l with
            | [] => Forall_nil_2 _
            | (k, Some x) :: rest =>
                Forall_cons_2 (λ kv, match kv.2 with Some x => P x | None => True end)
                  (k, Some x) rest (JsValue_nested_ind x) (all rest)
            | (k, None) :: rest =>
                Forall_cons_2 (λ kv, match kv.2 with Some x => P x | None => True end)
                  (k, None) rest I (all rest)
            end) props)
  | JsError name message props =>
      Herror name message props
        ((fix all (l : list (string * JsValue)) : Forall (λ kv, P kv.2) l :=
            match l with
            | [] => Forall_nil_2 _
            | (k, x) :: rest => Forall_cons_2 _ (k, x) rest (JsValue_nested_ind x) (all rest)
            end) props)
  end.
End JsValue_induction.

Lemma members_of_plain (props : list (string * JsValue)) :
  Forall (λ kv, plain kv.2 = true → ∃ x, JSON_stringify kv.2 = Return x) props →
  forallb (λ kv, match kv with (_, x) => plain x end) props = true →
  ∃ ts, members_with serialize props = inr ts.
Proof.
  induction 1 as [| [k x] rest Hx _ IH]; simpl; intros Hp; [by eexists |].
  apply andb_true_iff in Hp as [Hp1 Hp2].
  destruct (Hx Hp1) as [y Hy]. destruct (IH Hp2) as [ts Hts].
  unfold JSON_stringify in Hy. simpl in Hy.
  destruct (serialize x); [| | discriminate Hy]; rewrite ?Hts; by eexists.
Qed.

Lemma elements_of_plain (items : list JsValue) :
  Forall (λ x, plain x = true → ∃ y, JSON_stringify x = Return y) items →
  forallb plain items = true →
  ∃ ts, elements_with serialize items = inr ts.
Proof.
  induction 1 as [| x rest Hx _ IH]; simpl; intros Hp; [by eexists |].
  apply andb_true_iff in Hp as [Hp1 Hp2].
  destruct (Hx Hp1) as [y Hy]. destruct (IH Hp2) as [ts Hts].
  unfold JSON_stringify in Hy.
  destruct (serialize x); [| | discriminate Hy]; rewrite Hts; by eexists.
Qed.

(** [JSON.stringify] returns on every value that holds no BigInt and no
    object that holds itself. *)
Lemma plain_is_serialized (v : JsValue) :
  plain v = true → ∃ x, JSON_stringify v = Return x.
Proof.
  induction v as [| | b | text | n | s | items IH | props IH | props IH | name message props IH]
    using JsValue_nested_ind; intros Hp; unfold JSON_stringify; simpl in *;
    try discriminate Hp.
  - by eexists.
  - by eexists.
  - destruct b; by eexists.
  - destruct (_ || _); by eexists.
  - by eexists.
  - destruct (elements_of_plain items IH Hp) as [ts ->]. by eexists.
  - destruct (members_of_plain props IH Hp) as [ts ->]. by eexists.
  - destruct (members_of_plain props IH Hp) as [ts ->]. by eexists.
Qed.

Lemma caught_plain (err : JsValue) :
  plain err = true → caught err = Return (error_response err).
Proof.
  intros Hp. unfold caught. by destruct (plain_is_serialized err Hp) as [x ->].
Qed.

(** ** When the catch block throws *)

(** C5.  The handler does throw past its own boundary: the [catch] block
    serializes the caught value with [JSON.stringify], and what that
    throws is not caught.  With the database rejecting with an error that
    holds a BigInt, both variants end by throwing the [TypeError] of
    [JSON.stringify] instead of returning a response.  In general an
    invocation ends as its [try] block when that returns, and as the
    [catch] block on the thrown value otherwise; the [catch] block returns
    the error envelope for every value that holds no BigInt and no object
    that holds itself. *)
Theorem lambdaHandler_throws_what_stringify_throws :
  (connect database_rejects_with_BigInt = Throw error_with_BigInt ∧
   result (SecretStore.invoke database_rejects_with_BigInt valid_request)
     = Throw cannot_serialize_BigInt ∧
   result (EnvVar.invoke database_rejects_with_BigInt valid_request freshly_loaded)
     = Throw cannot_serialize_BigInt) ∧
  (∀ (w : World) (event : JsValue),
      result (SecretStore.invoke w event)
        = match result (SecretStore.try_block w event tt) with
          | Return r => Return r
          | Throw err => caught err
          end ∧
      ∀ st, result (EnvVar.invoke w event st)
              = match result (EnvVar.try_block w event st) with
                | Return r => Return r
                | Throw err => caught err
                end) ∧
  (∀ err : JsValue, plain err = true → caught err = Return (error_response err)).
Proof.
  split; [| split].
  - repeat split; vm_compute; reflexivity.
  - intros w event. split; [| intros st]; apply try_catch_result.
  - exact caught_plain.
Qed.

(** ** The response envelope *)

(** C3.  Not every failure gives a response with statusCode 200: with the
    credential chain rejecting with an error that holds an object which
    holds itself, [JSON.stringify(err)] throws in the [catch] block and
    the invocation gives no response at all.  Whenever the handler does
    return a response, its statusCode is 200 and its body is the JSON text
    of [{ dataKeyUUID }], with the text [stringify] gave, when the [try]
    block returned, and the JSON text of
    [{ message: "error", error: JSON.stringify(err) }] when the block
    threw [err]. *)
Theorem no_response_when_stringify_throws :
  (provider credentials_reject_with_circle = Throw error_with_circle ∧
   result (SecretStore.invoke credentials_reject_with_circle valid_request)
     = Throw circular_structure ∧
   result (EnvVar.invoke credentials_reject_with_circle valid_request freshly_loaded)
     = Throw circular_structure) ∧
  (∀ (w : World) (event : JsValue) (r : Response),
      (result (SecretStore.invoke w event) = Return r →
       statusCode r = 200%Z ∧
       match result (SecretStore.try_block w event tt) with
       | Return _ =>
           ∃ key, createDataKey w = Return key ∧
                  body r = stringified
                             (JsObject [("dataKeyUUID", JsString (stringify w (buffer key)))])
       | Throw err =>
           body r = stringified
                      (JsObject [("message", JsString "error"); ("error", stringified err)])
       end) ∧
      (∀ st, result (EnvVar.invoke w event st) = Return r →
       statusCode r = 200%Z ∧
       match result (EnvVar.try_block w event st) with
       | Return _ =>
           ∃ key, createDataKey w = Return key ∧
                  body r = stringified
                             (JsObject [("dataKeyUUID", JsString (stringify w (buffer key)))])
       | Throw err =>
           body r = stringified
                      (JsObject [("message", JsString "error"); ("error", stringified err)])
       end)).
Proof.
  split.
  - repeat split; vm_compute; reflexivity.
  - intros w event r. split; [| intros st].
    + unfold SecretStore.invoke, SecretStore.lambdaHandler. rewrite try_catch_result.
      pose proof (SecretStore_try_block_success w event) as Hs.
      destruct (result (SecretStore.try_block w event tt)) as [r' | err].
      * intros H. injection H as ->. destruct (Hs r eq_refl) as (key & Hk & ->).
        split; [reflexivity |]. by exists key.
      * unfold caught. destruct (JSON_stringify err); intros H; [| discriminate H].
        injection H as <-. by split.
    + unfold EnvVar.invoke, EnvVar.lambdaHandler. rewrite try_catch_result.
      pose proof (EnvVar_try_block_success w event st) as Hs.
      destruct (result (EnvVar.try_block w event st)) as [r' | err].
      * intros H. injection H as ->. destruct (Hs r eq_refl) as (key & Hk & ->).
        split; [reflexivity |]. by exists key.
      * unfold caught. destruct (JSON_stringify err); intros H; [| discriminate H].
        injection H as <-. by split.
Qed.
(** ** The binding [dbClient] of the second variant *)

Lemma EnvVar_invoke_keeps_dbClient (w : World) (event : JsValue) (st : EnvVar.St) :
  EnvVar.dbClient (bindings (EnvVar.invoke w event st)) = EnvVar.dbClient st.
Proof. run; reflexivity. Qed.

Lemma EnvVar_invoke_hands_null (w : World) (event : JsValue) (st : EnvVar.St) :
  EnvVar.dbClient st = None →
  Forall hands_null (calls (EnvVar.invoke w event st)).
Proof.
  intros Hnull. run; simpl; repeat constructor; exact Hnull.
Qed.

Lemma EnvVar_invocations_null (reqs : list (World * JsValue)) :
  ∀ st, EnvVar.dbClient st = None →
    EnvVar.dbClient (EnvVar.invocations st reqs).1 = None ∧
    Forall hands_null (EnvVar.invocations st reqs).2.
Proof.
  induction reqs as [| [w event] rest IH]; intros st Hnull; simpl.
  - by split.
  - pose proof (EnvVar_invoke_keeps_dbClient w event st) as Hkeep.
    pose proof (EnvVar_invoke_hands_null w event st Hnull) as Hcalls.
    destruct (IH (bindings (EnvVar.invoke w event st))) as [IH1 IH2];
      first by rewrite Hkeep.
    destruct (EnvVar.invocations (bindings (EnvVar.invoke w event st)) rest)
      as [st' t'] eqn:Hrest.
    simpl in *. split; first done.
    by apply Forall_app.
Qed.

(** C4.  In the variant that reads the URI from the environment, after any
    sequence of invocations from the freshly loaded module the binding
    [dbClient] is still [null]; every [ClientEncryption] was constructed
    with [null] as its client, and every [createDataKey] went to such an
    instance; so no client that [initializeMongodb] connected is the one
    an encryption client was constructed with. *)
Theorem dbClient_stays_null :
  ∀ (MONGODB_URI : JsValue) (reqs : list (World * JsValue)),
    let after := EnvVar.invocations (EnvVar.loaded MONGODB_URI) reqs in
    EnvVar.dbClient after.1 = None ∧
    Forall hands_null after.2 ∧
    (∀ connected handed options,
        In (MongoClient_connect connected) after.2 →
        In (New_ClientEncryption handed options) after.2 →
        handed ≠ Some connected).
Proof.
  intros MONGODB_URI reqs after.
  destruct (EnvVar_invocations_null reqs (EnvVar.loaded MONGODB_URI) eq_refl) as [Hst Hcalls].
  split; [done | split; [done |]].
  intros connected handed options _ Hin.
  rewrite Forall_forall in Hcalls.
  apply list_elem_of_In, Hcalls in Hin. simpl in Hin. by subst handed.
Qed.

(** An instance: two invocations, the first with a reachable backend, the
    second with the database down.  Both connect a client, the first one
    constructs an encryption client, and it is constructed with [null]. *)
Lemma dbClient_stays_null_instance :
  let after := EnvVar.invocations (EnvVar.loaded (JsString secret_uri))
               [(reachable, valid_request); (database_down, valid_request)] in
  (EnvVar.dbClient after.1 = None ∧
   Forall hands_null after.2 ∧
   (∀ connected handed options,
       In (MongoClient_connect connected) after.2 →
       In (New_ClientEncryption handed options) after.2 →
       handed ≠ Some connected)) ∧
  In (MongoClient_connect {| mc_uri := JsString secret_uri; mc_options := mongo_options |})
     after.2 ∧
  In (New_ClientEncryption None
        {| keyVaultNamespace := KEY_NAMESPACE;
           kmsProviders_aws :=
             {| accessKeyId := JsString "ASIAEXAMPLEKEYID";
                secretAccessKey := JsString "examplesecret";
                sessionToken := JsString "exampletoken" |} |})
     after.2.
Proof.
  split.
  - apply (dbClient_stays_null (JsString secret_uri)
             [(reachable, valid_request); (database_down, valid_request)]).
  - vm_compute. split; tauto.
Defined.

(** ** Key creation comes after the connection *)




(** ** The arguments of key creation *)

(** C9.  Every [createDataKey] call the handler makes has provider aws,
    the master key [{ key: kmsKeyArn, region: kmsKeyRegion }] of the
    request, the alternate names [[dekAltName]], and goes to an instance
    bound to the namespace encryption.__keyVault; and whenever the [try]
    block runs to its end, that call was made. *)
Theorem key_creation_call_is_the_requested_one :
  ∀ (w : World) (event : JsValue),
    KEY_NAMESPACE = "encryption.__keyVault" ∧
    (Forall (key_creation_for event) (calls (SecretStore.invoke w event)) ∧
     ∀ r, result (SecretStore.try_block w event tt) = Return r →
          existsb is_createDataKey (calls (SecretStore.invoke w event)) = true) ∧
    (∀ st,
        Forall (key_creation_for event) (calls (EnvVar.invoke w event st)) ∧
        ∀ r, result (EnvVar.try_block w event st) = Return r →
             existsb is_createDataKey (calls (EnvVar.invoke w event st)) = true).
Proof.
  intros w event. split; [reflexivity |]. split; [| intros st]; split.
  - run; repeat constructor.
  - run; intros r H; by try discriminate H.
  - run; repeat constructor.
  - run; intros r H; by try discriminate H.
Qed.

(** An instance: the first example of the specification on a reachable
    backend.  The [try] block returns, and the one key creation call is the
    one written out here. *)
Lemma key_creation_call_instance :
  (∃ r, result (SecretStore.try_block reachable valid_request tt) = Return r) ∧
  existsb is_createDataKey (calls (SecretStore.invoke reachable valid_request)) = true ∧
  Forall (key_creation_for valid_request) (calls (SecretStore.invoke reachable valid_request)) ∧
  List.filter is_createDataKey (calls (SecretStore.invoke reachable valid_request)) =
    [ClientEncryption_createDataKey
       {| ce_client := Some {| mc_uri := JsString secret_uri; mc_options := mongo_options |};
          ce_options :=
            {| keyVaultNamespace := "encryption.__keyVault";
               kmsProviders_aws :=
                 {| accessKeyId := JsString "ASIAEXAMPLEKEYID";
                    secretAccessKey := JsString "examplesecret";
                    sessionToken := JsString "exampletoken" |} |} |}
       "aws"
       {| masterKey :=
            {| key := JsString "arn:aws:kms:ap-south-1:111122223333:key/abc";
               region := JsString "ap-south-1" |};
          keyAltNames := [JsString "service-x-dek"] |}].
Proof.
  destruct (key_creation_call_is_the_requested_one reachable valid_request)
    as (_ & [Hall Hmade] & _).
  assert (Hruns : ∃ r, result (SecretStore.try_block reachable valid_request tt) = Return r)
    by (eexists; vm_compute; reflexivity).
  destruct Hruns as [r Hr].
  split; [by exists r |]. split; [exact (Hmade r Hr) |]. split; [exact Hall | vm_compute; reflexivity].
Defined.


(** ** The secret fetch comes before validation *)




(** ** A missing parameter *)

Lemma missing_parameter_of_absent (a b c : JsValue) :
  absent_or_empty a ∨ absent_or_empty b ∨ absent_or_empty c →
  missing_parameter a b c = true.
Proof.
  unfold missing_parameter.
  intros [[-> | ->] | [[-> | ->] | [-> | ->]]]; simpl; rewrite ?orb_true_r; reflexivity.
Qed.

Lemma validation_failure_envelope (a b c : JsValue) :
  caught (validation_failure a b c)
    = Return {| statusCode := 200;
                body := stringified (JsObject [("message", JsString "error");
                                               ("error", JsString "{}")]) |}.
Proof.
  unfold validation_failure.
  destruct (ToString a) as [? | e] eqn:Ea;
    [destruct (ToString b) as [? | e] eqn:Eb;
       [destruct (ToString c) as [? | e] eqn:Ec |] |];
    try reflexivity;
    match goal with
    | H : ToString ?x = Throw _ |- _ =>
        unfold ToString in H; destruct (to_string x); [discriminate H |];
        injection H as <-; reflexivity
    end.
Qed.

(** C2.  The envelope of a refused request names no parameter.  On the
    second example of the specification and a reachable backend, the
    thrown [Error] has a message that names kmsKeyArn, and it is logged;
    but the body of the envelope, in both variants, is the JSON text of
    [{ message: "error", error: "{}" }], in which no parameter is named.
    So it is for every request with properties to read where a parameter
    is absent or the empty string: the second variant, and the first one
    when the secret fetch returned, answer with that same body, and
    construct no database client. *)
Theorem empty_arn_envelope_names_no_parameter :
  (result (SecretStore.invoke reachable empty_arn_request)
     = Return {| statusCode := 200;
                 body := stringified (JsObject [("message", JsString "error");
                                                ("error", JsString "{}")]) |} ∧
   includes (body_text (result (SecretStore.invoke reachable empty_arn_request)))
            "kmsKeyArn" = false) ∧
  (result (EnvVar.invoke reachable empty_arn_request freshly_loaded)
     = Return {| statusCode := 200;
                 body := stringified (JsObject [("message", JsString "error");
                                                ("error", JsString "{}")]) |} ∧
   includes (body_text (result (EnvVar.invoke reachable empty_arn_request freshly_loaded)))
            "kmsKeyArn" = false) ∧
  In (Console_log
        (JsError "Error"
           "One of the parameter is not provided kmsKeyArn: , kmsKeyRegion: ap-south-1, dekAltName: x"
           []))
     (calls (SecretStore.invoke reachable empty_arn_request)) ∧
  existsb is_database_call (calls (SecretStore.invoke reachable empty_arn_request)) = false ∧
  (∀ (w : World) (event : JsValue),
      is_nullish event = false →
      absent_or_empty (lookup_prop event "kmsKeyArn") ∨
      absent_or_empty (lookup_prop event "kmsKeyRegion") ∨
      absent_or_empty (lookup_prop event "dekAltName") →
      (∀ st,
          result (EnvVar.invoke w event st)
            = Return {| statusCode := 200;
                        body := stringified (JsObject [("message", JsString "error");
                                                       ("error", JsString "{}")]) |} ∧
          existsb is_database_call (calls (EnvVar.invoke w event st)) = false) ∧
      (∀ secrets,
          result (SecretStore.getSecretManagerData w tt) = Return secrets →
          result (SecretStore.invoke w event)
            = Return {| statusCode := 200;
                        body := stringified (JsObject [("message", JsString "error");
                                                       ("error", JsString "{}")]) |} ∧
          existsb is_database_call (calls (SecretStore.invoke w event)) = false)).
Proof.
  split; [| split; [| split; [| split]]];
    [split; vm_compute; reflexivity | split; vm_compute; reflexivity | | reflexivity |].
  - vm_compute. tauto.
  - intros w event Hevent Habsent. apply missing_parameter_of_absent in Habsent.
    pose proof (validation_failure_envelope (lookup_prop event "kmsKeyArn")
                  (lookup_prop event "kmsKeyRegion") (lookup_prop event "dekAltName")) as Hv.
    unfold validation_failure in Hv.
    split; [intros st | intros secrets];
      unfold_handler; rewrite Hevent, ?Habsent; cbv beta iota zeta;
      split_outcomes; rewrite_outcomes; simpl;
      try (intros Hfetch; try discriminate Hfetch);
      rewrite_outcomes; (split; [by rewrite <- Hv; rewrite_outcomes | reflexivity]).
Qed.

(** ** The error field *)

(** C6, as the code has it.  An invocation whose [try] block threw ends
    as the [catch] block on the caught value, and in the envelope that
    block returns the error field is what [JSON.stringify] returned for
    that value.  An [Error] is serialized from its own enumerable
    properties alone, whatever its message: one that has none serializes
    to the text {}, and such is the [Error] the handler throws for a
    missing parameter, whose envelope therefore has the same body for
    every request. *)
Theorem error_field_is_stringified_caught_value :
  (∀ (w : World) (event err : JsValue),
      (result (SecretStore.try_block w event tt) = Throw err →
       result (SecretStore.invoke w event) = caught err) ∧
      (∀ st, result (EnvVar.try_block w event st) = Throw err →
             result (EnvVar.invoke w event st) = caught err)) ∧
  (∀ err x : JsValue,
      JSON_stringify err = Return x →
      caught err = Return {| statusCode := 200;
                             body := stringified (JsObject [("message", JsString "error");
                                                            ("error", x)]) |}) ∧
  (∀ name message props,
      JSON_stringify (JsError name message props) = JSON_stringify (JsObject props)) ∧
  (∀ name message, JSON_stringify (JsError name message []) = Return (JsString "{}")) ∧
  (∀ kmsKeyArn kmsKeyRegion dekAltName : string,
      caught (parameter_error kmsKeyArn kmsKeyRegion dekAltName)
        = Return {| statusCode := 200;
                    body := stringified (JsObject [("message", JsString "error");
                                                   ("error", JsString "{}")]) |}).
Proof.
  split; [| split; [| split; [| split]]].
  - intros w event err. split; [| intros st]; intros H.
    + unfold SecretStore.invoke, SecretStore.lambdaHandler. by rewrite try_catch_result, H.
    + unfold EnvVar.invoke, EnvVar.lambdaHandler. by rewrite try_catch_result, H.
  - intros err x H. unfold caught, error_response. rewrite H.
    by rewrite (JSON_stringify_stringified err x H).
  - reflexivity.
  - reflexivity.
  - reflexivity.
Qed.

(** C6 as stated fails when the credential chain finds no credentials: the
    rejection is an [Error] instance, its serialization is not the text {},
    and the body of the envelope tells which failure it was. *)
Lemma credentials_error_keeps_its_detail :
  result (SecretStore.try_block credentials_missing valid_request tt)
    = Throw credentials_error ∧
  JSON_stringify credentials_error
    = JSON_stringify (JsObject [("name", JsString "CredentialsProviderError");
                                ("tryNextLink", JsBool false)]) ∧
  JSON_stringify credentials_error ≠ Return (JsString "{}") ∧
  result (SecretStore.invoke credentials_missing valid_request)
    = Return {| statusCode := 200;
                body := stringified (JsObject [("message", JsString "error");
                                               ("error", stringified credentials_error)]) |} ∧
  includes (body_text (result (SecretStore.invoke credentials_missing valid_request)))
           "CredentialsProviderError" = true.
Proof.
  repeat apply conj; try (vm_compute; reflexivity).
  vm_compute. discriminate.
Qed.

(** ** The returned UUID *)

Lemma stringify_ignores_its_argument (w : World) (arg arg' : list byte) :
  stringify w arg = stringify w arg'.
Proof. reflexivity. Qed.

(** C1, on a reachable backend and the first example of the
    specification.  [createDataKey] resolves with the key id
    9f3c1a52-7d4e-4b8a-a1c6-2e5f70b9d3e4; the handler answers with another
    UUID, the text of the generator's bytes with the version and variant
    bits set, and decoding that text does not give the key id.  In both
    variants the text is the same whatever key id was returned. *)
Theorem dataKeyUUID_is_not_the_key_id :
  createDataKey reachable = Return {| buffer := key_id |} ∧
  unsafeStringify key_id = "9f3c1a52-7d4e-4b8a-a1c6-2e5f70b9d3e4" ∧
  result (SecretStore.invoke reachable valid_request)
    = Return (success_response "520be731-06c4-4d28-a3f0-1ea5774c09bb") ∧
  result (EnvVar.invoke reachable valid_request freshly_loaded)
    = Return (success_response "520be731-06c4-4d28-a3f0-1ea5774c09bb") ∧
  parse "9f3c1a52-7d4e-4b8a-a1c6-2e5f70b9d3e4" = Some key_id ∧
  parse "520be731-06c4-4d28-a3f0-1ea5774c09bb"
    = Some [x52; x0b; xe7; x31; x06; xc4; x4d; x28; xa3; xf0; x1e; xa5; x77; x4c; x09; xbb] ∧
  parse "520be731-06c4-4d28-a3f0-1ea5774c09bb" ≠ Some key_id ∧
  (∀ id : list byte,
      result (SecretStore.invoke
                (backend (Return secret_response) (Return tt) (Return credentials)
                         (Return {| buffer := id |}))
                valid_request)
        = Return (success_response "520be731-06c4-4d28-a3f0-1ea5774c09bb")).
Proof.
  repeat apply conj; try (vm_compute; reflexivity).
  vm_compute. discriminate.
Qed.

(** ** The two variants compared *)

(** C7, as the code has it.  When the secret store answers (its three
    calls return, the response has properties to read, and [JSON.parse]
    returns a secret that has properties to read), the two variants end
    alike for the same event and the same outcomes of the collaborators,
    with the same response, and the calls of the first variant
    other than those to the secret store are the calls of the second one,
    in the same order, up to the URI given to [MongoClient] and the client
    handed to [ClientEncryption]. *)
Theorem variants_agree_when_secret_store_answers :
  ∀ (w : World) (event : JsValue) (st : EnvVar.St),
    secret_store_answers w →
    result (SecretStore.invoke w event) = result (EnvVar.invoke w event st) ∧
    map without_handles
        (List.filter (λ e, negb (is_secret_store_call e)) (calls (SecretStore.invoke w event)))
      = map without_handles (calls (EnvVar.invoke w event st)).
Proof.
  intros w event st (Hctor1 & Hctor2 & response & secrets & Hsend & Hresponse & Hparse & Hsecrets).
  run; simplify_eq; try congruence; split; reflexivity.
Qed.

(** An instance: the reachable backend answers, and the two variants give
    the same response to the first example of the specification. *)
Lemma variants_agree_instance :
  secret_store_answers reachable ∧
  result (SecretStore.invoke reachable valid_request)
    = result (EnvVar.invoke reachable valid_request freshly_loaded) ∧
  map without_handles
      (List.filter (λ e, negb (is_secret_store_call e))
                   (calls (SecretStore.invoke reachable valid_request)))
    = map without_handles (calls (EnvVar.invoke reachable valid_request freshly_loaded)).
Proof.
  assert (H : secret_store_answers reachable).
  { split; [reflexivity |]. split; [reflexivity |].
    exists secret_response, secret. repeat split. }
  split; [exact H |].
  exact (variants_agree_when_secret_store_answers reachable valid_request freshly_loaded H).
Defined.

(** C7 as stated fails.  With the secret store down and a request that
    misses a parameter, the first variant answers with the envelope of the
    store's error and the second one with the envelope of the parameter
    error, and these differ.  With everything reachable the calls differ:
    the first variant calls the secret store, and, those calls apart, it
    hands the connected client to [ClientEncryption] where the second one
    hands [null].  With a secret whose text is the JSON text of [null] the
    three secret-store calls return and [JSON.parse] returns, yet the first
    variant fails on reading [MONGODB_URI] where the second one succeeds. *)
Lemma variants_differ :
  (result (SecretStore.invoke secret_store_down empty_arn_request)
     = Return (error_response access_denied) ∧
   result (EnvVar.invoke secret_store_down empty_arn_request freshly_loaded)
     = Return (error_response (parameter_error "" "ap-south-1" "x")) ∧
   result (SecretStore.invoke secret_store_down empty_arn_request)
     ≠ result (EnvVar.invoke secret_store_down empty_arn_request freshly_loaded)) ∧
  calls (SecretStore.invoke reachable valid_request)
    ≠ calls (EnvVar.invoke reachable valid_request freshly_loaded) ∧
  List.filter (λ e, negb (is_secret_store_call e))
              (calls (SecretStore.invoke reachable valid_request))
    ≠ calls (EnvVar.invoke reachable valid_request freshly_loaded) ∧
  (send secret_is_null = Return (JsObject [("SecretString", JsString "null")]) ∧
   result (SecretStore.getSecretManagerData secret_is_null tt) = Return JsNull ∧
   result (SecretStore.invoke secret_is_null valid_request)
     = Return (error_response
                 (TypeError "Cannot read properties of null (reading 'MONGODB_URI')")) ∧
   result (EnvVar.invoke secret_is_null valid_request freshly_loaded)
     = Return (success_response "520be731-06c4-4d28-a3f0-1ea5774c09bb")).
Proof.
  repeat apply conj; try (vm_compute; reflexivity); vm_compute; discriminate.
Qed.

(** * Further properties of the handlers *)

(** ** When the database is reached *)

(** X1.  The second variant constructs a [MongoClient] exactly when the event
    has properties to read and the three parameters are truthy; the first
    variant, when moreover the secret fetch returned a secret with
    properties to read.  Truthiness is the whole test: a present but falsy
    parameter is refused, a truthy one of any type is let through. *)
Theorem database_is_reached_iff_parameters_are_truthy :
  ∀ (w : World) (event : JsValue),
    let passes :=
      negb (is_nullish event) &&
      (truthy (lookup_prop event "kmsKeyArn") && truthy (lookup_prop event "kmsKeyRegion") &&
       truthy (lookup_prop event "dekAltName")) in
    (∀ st, existsb is_database_call (calls (EnvVar.invoke w event st)) = passes) ∧
    existsb is_database_call (calls (SecretStore.invoke w event))
      = passes && answers (result (SecretStore.getSecretManagerData w tt)).
Proof.
  intros w event; cbv zeta. unfold missing_parameter.
  split; [intros st |].
  - unfold_handler. unfold missing_parameter.
    destruct (is_nullish event); [reflexivity |].
    destruct (truthy (lookup_prop event "kmsKeyArn")),
             (truthy (lookup_prop event "kmsKeyRegion")),
             (truthy (lookup_prop event "dekAltName")); simpl;
      split_outcomes; reflexivity.
  - unfold_handler. unfold missing_parameter, answers.
    destruct (is_nullish event); [reflexivity |].
    destruct (truthy (lookup_prop event "kmsKeyArn")),
             (truthy (lookup_prop event "kmsKeyRegion")),
             (truthy (lookup_prop event "dekAltName")); simpl;
      split_outcomes; simpl; try reflexivity; simplify_eq; try congruence;
      repeat match goal with H : is_nullish _ = _ |- _ => rewrite H end; reflexivity.
Qed.

(** Instances: numbers, booleans and arrays pass for parameters, and a
    region that is the number 0 is refused like a missing one. *)
Lemma database_is_reached_instance :
  existsb is_database_call (calls (EnvVar.invoke reachable untyped_request freshly_loaded)) = true ∧
  existsb is_database_call (calls (SecretStore.invoke reachable untyped_request)) = true ∧
  existsb is_database_call (calls (EnvVar.invoke reachable falsy_request freshly_loaded)) = false ∧
  existsb is_database_call (calls (SecretStore.invoke reachable falsy_request)) = false.
Proof.
  pose proof (database_is_reached_iff_parameters_are_truthy reachable untyped_request) as [Ha Hb].
  pose proof (database_is_reached_iff_parameters_are_truthy reachable falsy_request) as [Hc Hd].
  split; [exact (Ha freshly_loaded) |]. split; [exact Hb |].
  split; [exact (Hc freshly_loaded) | exact Hd].
Defined.

(** ** When the handler succeeds *)

(** X2.  The [try] block returns exactly when every one of its steps goes
    through, and then with the envelope of the text that [stringify]
    gives. *)
Theorem try_block_returns_iff_every_step_does :
  ∀ (w : World) (event : JsValue),
    returns (result (SecretStore.try_block w event tt)) = SecretStore_steps_return w event ∧
    (∀ st, returns (result (EnvVar.try_block w event st)) = EnvVar_steps_return w event) ∧
    (∀ r, result (SecretStore.try_block w event tt) = Return r →
          ∃ key, createDataKey w = Return key ∧
                 r = success_response (stringify w (buffer key))) ∧
    (∀ st r, result (EnvVar.try_block w event st) = Return r →
          ∃ key, createDataKey w = Return key ∧
                 r = success_response (stringify w (buffer key))).
Proof.
  intros w event. repeat apply conj.
  - run; unfold SecretStore_steps_return; repeat (progress (rewrite_outcomes; simpl));
      rewrite ?andb_false_r; reflexivity.
  - intros st. run; unfold EnvVar_steps_return; repeat (progress (rewrite_outcomes; simpl));
      rewrite ?andb_false_r; reflexivity.
  - run; intros r H; try discriminate H. injection H as <-. by eexists.
  - intros st. run; intros r H; try discriminate H. injection H as <-. by eexists.
Qed.

(** An instance: on the reachable backend every step of the first example
    goes through, and with the database down it does not. *)
Lemma try_block_returns_instance :
  SecretStore_steps_return reachable valid_request = true ∧
  returns (result (SecretStore.try_block reachable valid_request tt)) = true ∧
  SecretStore_steps_return database_down valid_request = false ∧
  returns (result (SecretStore.try_block database_down valid_request tt)) = false.
Proof.
  pose proof (try_block_returns_iff_every_step_does reachable valid_request) as [Ha _].
  pose proof (try_block_returns_iff_every_step_does database_down valid_request) as [Hb _].
  split; [reflexivity |]. split; [rewrite Ha; reflexivity |].
  split; [reflexivity |]. rewrite Hb; reflexivity.
Defined.

(** ** The order of the calls *)

(** X3.  In every invocation the calls follow the text of the handler: secret
    store client, command, [send], [MongoClient], [connect], provider
    chain, provider, [ClientEncryption], [createDataKey], and one
    [console.log], which is the last call.  No call is made twice: nothing
    is retried. *)
Theorem calls_follow_the_text_once :
  ∀ (w : World) (event : JsValue),
    (increasing (map call_rank (calls (SecretStore.invoke w event))) = true ∧
     ∃ v, last (calls (SecretStore.invoke w event)) = Some (Console_log v)) ∧
    (∀ st,
        increasing (map call_rank (calls (EnvVar.invoke w event st))) = true ∧
        ∃ v, last (calls (EnvVar.invoke w event st)) = Some (Console_log v)).
Proof.
  intros w event. split; [| intros st]; split.
  - run; reflexivity.
  - run; by eexists.
  - run; reflexivity.
  - run; by eexists.
Qed.

(** ** What the database client is given *)

(** X4.  The first variant gives [MongoClient] the [MONGODB_URI] property of
    the parsed secret as it is, without a check, and makes no database call
    when the fetch threw; the second variant gives it the module constant
    [uri].  Both pass the two fixed options and connect the client they
    constructed. *)
Theorem database_client_gets_the_uri_as_it_is :
  ∀ (w : World) (event : JsValue),
    match result (SecretStore.getSecretManagerData w tt) with
    | Return secrets =>
        Forall (connects_to (lookup_prop secrets "MONGODB_URI"))
               (calls (SecretStore.invoke w event))
    | Throw _ => existsb is_database_call (calls (SecretStore.invoke w event)) = false
    end ∧
    (∀ st, Forall (connects_to (EnvVar.uri st)) (calls (EnvVar.invoke w event st))).
Proof.
  intros w event. split; [| intros st].
  - run; simplify_eq; simpl; try reflexivity; repeat constructor.
  - run; simpl; repeat constructor.
Qed.

(** An instance: a secret that holds no [MONGODB_URI].  The client is
    constructed with [undefined] and connected. *)
Lemma database_client_instance :
  result (SecretStore.getSecretManagerData secret_without_uri tt) = Return (JsObject []) ∧
  Forall (connects_to JsUndefined) (calls (SecretStore.invoke secret_without_uri valid_request)) ∧
  In (New_MongoClient JsUndefined mongo_options)
     (calls (SecretStore.invoke secret_without_uri valid_request)) ∧
  In (MongoClient_connect {| mc_uri := JsUndefined; mc_options := mongo_options |})
     (calls (SecretStore.invoke secret_without_uri valid_request)).
Proof.
  split; [reflexivity |].
  split; [exact (proj1 (database_client_gets_the_uri_as_it_is secret_without_uri valid_request)) |].
  vm_compute. split; tauto.
Defined.

(** ** What the encryption client is given *)

(** X5.  A [ClientEncryption] is constructed only when the credential chain
    resolved with a value that has properties to read, and then with the
    key vault namespace and the three credential fields as they are: a
    field the credentials lack is passed as [undefined]. *)
Theorem encryption_client_gets_the_credentials_as_they_are :
  ∀ (w : World) (event : JsValue),
    let constructed_with (tr : list Event) :=
      match provider w with
      | Return aws =>
          if is_nullish aws then existsb is_new_ClientEncryption tr = false
          else Forall (encrypts_with aws) tr
      | Throw _ => existsb is_new_ClientEncryption tr = false
      end in
    constructed_with (calls (SecretStore.invoke w event)) ∧
    (∀ st, constructed_with (calls (EnvVar.invoke w event st))).
Proof.
  intros w event; cbv zeta. split; [| intros st].
  - run; simplify_eq; simpl; try reflexivity; try congruence; repeat constructor.
  - run; simplify_eq; simpl; try reflexivity; try congruence; repeat constructor.
Qed.

(** An instance: long-term credentials have no session token, and the
    encryption client is constructed with [sessionToken: undefined]. *)
Lemma encryption_client_instance :
  let w := backend (Return secret_response) (Return tt) (Return long_term_credentials)
                   (Return {| buffer := key_id |}) in
  Forall (encrypts_with long_term_credentials) (calls (SecretStore.invoke w valid_request)) ∧
  In (New_ClientEncryption
        (Some {| mc_uri := JsString secret_uri; mc_options := mongo_options |})
        {| keyVaultNamespace := "encryption.__keyVault";
           kmsProviders_aws :=
             {| accessKeyId := JsString "AKIAEXAMPLEKEYID";
                secretAccessKey := JsString "examplesecret";
                sessionToken := JsUndefined |} |})
     (calls (SecretStore.invoke w valid_request)).
Proof.
  split.
  - exact (proj1 (encryption_client_gets_the_credentials_as_they_are
                    (backend (Return secret_response) (Return tt)
                             (Return long_term_credentials) (Return {| buffer := key_id |}))
                    valid_request)).
  - vm_compute. tauto.
Defined.

(** ** What the response and the log do not hold *)

(** X6.  The response and what is logged do not depend on the content of the
    secret or of the credentials: two worlds where the secret store and
    the credential chain answer, and that agree on everything else, give
    the same response and the same logged values for the same event. *)
Theorem response_and_log_ignore_the_secrets :
  ∀ (w w' : World) (event : JsValue),
    same_but_secrets w w' → secrets_resolve w → secrets_resolve w' →
    result (SecretStore.invoke w event) = result (SecretStore.invoke w' event) ∧
    List.filter is_log (calls (SecretStore.invoke w event))
      = List.filter is_log (calls (SecretStore.invoke w' event)).
Proof.
  intros w w' event
    (E1 & E2 & E3 & E4 & E5 & E6 & E7 & E8)
    [(C1 & C2 & resp & sec & S1 & S2 & S3 & S4) (aws & P1 & P2)]
    [(C1' & C2' & resp' & sec' & S1' & S2' & S3' & S4') (aws' & P1' & P2')].
  unfold stringify.
  unfold_handler. unfold stringify.
  rewrite C1, C2, S1, P1, C1', C2', S1', P1', <- E3, <- E4, <- E5, <- E6, <- E7, <- E8.
  cbv beta iota zeta.
  repeat (rewrite ?S2, ?S2', ?S3, ?S3', ?S4, ?S4', ?P2, ?P2'; cbv beta iota zeta; step);
    rewrite ?S2, ?S2', ?S3, ?S3', ?S4, ?S4', ?P2, ?P2'; cbv beta iota zeta;
    split; reflexivity.
Qed.

(** An instance: the reachable backend, and the same backend with a secret
    that holds no URI and with credentials that hold no session token. *)
Lemma response_and_log_instance :
  same_but_secrets reachable reachable_elsewhere ∧
  JSON_parse reachable ≠ JSON_parse reachable_elsewhere ∧
  provider reachable ≠ provider reachable_elsewhere ∧
  result (SecretStore.invoke reachable valid_request)
    = result (SecretStore.invoke reachable_elsewhere valid_request) ∧
  List.filter is_log (calls (SecretStore.invoke reachable valid_request))
    = List.filter is_log (calls (SecretStore.invoke reachable_elsewhere valid_request)).
Proof.
  assert (Hsame : same_but_secrets reachable reachable_elsewhere)
    by (repeat split).
  assert (H1 : secrets_resolve reachable).
  { split.
    - split; [reflexivity |]. split; [reflexivity |].
      exists secret_response, secret. repeat split.
    - exists credentials. split; reflexivity. }
  assert (H2 : secrets_resolve reachable_elsewhere).
  { split.
    - split; [reflexivity |]. split; [reflexivity |].
      exists (JsObject [("SecretString", JsString "{}")]), (JsObject []). repeat split.
    - exists long_term_credentials. split; reflexivity. }
  split; [exact Hsame |].
  split; [intros H; apply (f_equal (λ f, f (JsString "{}"))) in H; vm_compute in H; discriminate H |].
  split; [vm_compute; discriminate |].
  exact (response_and_log_ignore_the_secrets reachable reachable_elsewhere valid_request
           Hsame H1 H2).
Defined.

(** ** The bindings of the second variant across invocations *)

(** X7.  An invocation of the second variant neither reads the encryption
    instance that an earlier invocation left in the binding nor changes
    [uri]: with another instance left there, the response and the calls
    are the same.  The binding itself changes only when this invocation
    constructs a [ClientEncryption]; an invocation that fails before
    leaves the earlier instance in place. *)
Theorem invocation_ignores_the_instance_left :
  ∀ (w : World) (event : JsValue) (st : EnvVar.St) (left : option ClientEncryption),
    result (EnvVar.invoke w event (with_instance st left)) = result (EnvVar.invoke w event st) ∧
    calls (EnvVar.invoke w event (with_instance st left)) = calls (EnvVar.invoke w event st) ∧
    EnvVar.uri (bindings (EnvVar.invoke w event st)) = EnvVar.uri st ∧
    (existsb is_new_ClientEncryption (calls (EnvVar.invoke w event st))
       && returns (clientEncryption_ctor w) = false →
     EnvVar.encryptionInstance (bindings (EnvVar.invoke w event st))
       = EnvVar.encryptionInstance st).
Proof.
  intros w event st left. unfold with_instance. repeat apply conj.
  - run; reflexivity.
  - run; reflexivity.
  - run; reflexivity.
  - run; unfold returns; rewrite_outcomes; simpl; intros H; by try discriminate H.
Qed.

(** An instance: with the database down, the instance that the invocation
    before constructed stays in the binding. *)
Lemma invocation_instance_left :
  let before := bindings (EnvVar.invoke reachable valid_request freshly_loaded) in
  is_Some (EnvVar.encryptionInstance before) ∧
  EnvVar.encryptionInstance (bindings (EnvVar.invoke database_down valid_request before))
    = EnvVar.encryptionInstance before.
Proof.
  split; [vm_compute; by eexists |].
  apply (invocation_ignores_the_instance_left database_down valid_request
           (bindings (EnvVar.invoke reachable valid_request freshly_loaded)) None).
  reflexivity.
Defined.

(** ** What establishing the connection throws *)

(** X8.  [initializeMongodb] throws exactly what the [MongoClient] constructor
    or [connect] threw, unchanged: its [catch] only rethrows.  It calls
    [connect] exactly when the constructor returned, returns the client of
    the given URI and the two fixed options, and leaves the bindings
    alone. *)
Theorem initializeMongodb_rethrows_unchanged :
  ∀ (w : World) (uri : JsValue),
    let client := {| mc_uri := uri; mc_options := mongo_options |} in
    let made (tr : list Event) :=
      tr = New_MongoClient uri mongo_options ::
           (if returns (mongoClient_ctor w) then [MongoClient_connect client] else []) in
    ((∀ e, result (SecretStore.initializeMongodb w uri tt) = Throw e ↔ connection_fails w e) ∧
     (∀ c, result (SecretStore.initializeMongodb w uri tt) = Return c → c = client) ∧
     made (calls (SecretStore.initializeMongodb w uri tt))) ∧
    (∀ st, EnvVar.uri st = uri →
       (∀ e, result (EnvVar.initializeMongodb w st) = Throw e ↔ connection_fails w e) ∧
       (∀ c, result (EnvVar.initializeMongodb w st) = Return c → c = client) ∧
       made (calls (EnvVar.initializeMongodb w st)) ∧
       bindings (EnvVar.initializeMongodb w st) = st).
Proof.
  intros w uri; cbv zeta. unfold connection_fails, returns. split.
  - unfold_handler. destruct (mongoClient_ctor w) as [[] | e1]; cbv beta iota zeta;
      [destruct (connect w) as [[] | e2]; cbv beta iota zeta |];
      repeat apply conj; try reflexivity; intros; intuition congruence.
  - intros st <-. unfold_handler.
    destruct (mongoClient_ctor w) as [[] | e1]; cbv beta iota zeta;
      [destruct (connect w) as [[] | e2]; cbv beta iota zeta |];
      repeat apply conj; try reflexivity; intros; intuition congruence.
Qed.

(** An instance: with the database down, [initializeMongodb] throws the
    driver's error itself. *)
Lemma initializeMongodb_instance :
  connection_fails database_down server_selection_error ∧
  result (SecretStore.initializeMongodb database_down (JsString secret_uri) tt)
    = Throw server_selection_error.
Proof.
  assert (H : connection_fails database_down server_selection_error)
    by (right; split; reflexivity).
  split; [exact H |].
  apply (initializeMongodb_rethrows_unchanged database_down (JsString secret_uri)), H.
Defined.

(** ** The text of the returned UUID *)

Lemma byteToHex_lower_hex (b : byte) : all_lower_hex (byteToHex b) = true.
Proof. destruct b; reflexivity. Qed.

Lemma byteToHex_spine (b : byte) :
  ∃ hi lo, byteToHex b = String hi (String lo "") ∧
           is_lower_hex hi = true ∧ is_lower_hex lo = true.
Proof.
  pose proof (byteToHex_lower_hex b) as H. unfold byteToHex in *.
  eexists _, _. split; [reflexivity |]. simpl in H.
  apply andb_true_iff in H as [H1 H2]. apply andb_true_iff in H2 as [H2 _]. by split.
Qed.

Lemma version_byte_spine (b : byte) :
  ∃ lo, byteToHex (uint8 (N.lor (N.land (Byte.to_N b) 15) 64)) = String "4" (String lo "") ∧
        is_lower_hex lo = true.
Proof. destruct b; eexists; split; reflexivity. Qed.

Lemma variant_byte_spine (b : byte) :
  ∃ hi lo, byteToHex (uint8 (N.lor (N.land (Byte.to_N b) 63) 128)) = String hi (String lo "") ∧
           is_lower_hex lo = true ∧
           (hi = "8" ∨ hi = "9" ∨ hi = "a" ∨ hi = "b")%char.
Proof. destruct b; eexists _, _; (split; [reflexivity |]); split; tauto. Qed.

Lemma v4_has_the_format (options rnds : list byte) :
  length rnds = 16%nat → uuid_v4_format (v4 options rnds) = true.
Proof.
  intros Hlen.
  do 16 (destruct rnds as [| ? rnds]; [discriminate Hlen |]).
  destruct rnds; [| discriminate Hlen]. clear Hlen.
  unfold v4, unsafeStringify.
  cbn [lookup list_lookup insert list_insert fmap option_fmap option_map default from_option].
  unfold id.
  repeat match goal with
         | |- context [byteToHex (uint8 (N.lor (N.land (Byte.to_N ?b) 15) 64))] =>
             let lo := fresh "lo" in let E := fresh "E" in let H := fresh "H" in
             destruct (version_byte_spine b) as (lo & E & H); rewrite E; clear E
         | |- context [byteToHex (uint8 (N.lor (N.land (Byte.to_N ?b) 63) 128))] =>
             let hi := fresh "hi" in let lo := fresh "lo" in
             let E := fresh "E" in let H := fresh "H" in let V := fresh "V" in
             destruct (variant_byte_spine b) as (hi & lo & E & H & V); rewrite E; clear E
         | |- context [byteToHex ?b] =>
             let hi := fresh "hi" in let lo := fresh "lo" in
             let E := fresh "E" in let H1 := fresh "H" in let H2 := fresh "H" in
             destruct (byteToHex_spine b) as (hi & lo & E & H1 & H2); rewrite E; clear E
         end.
  unfold uuid_v4_format.
  destruct V as [-> | [-> | [-> | ->]]]; cbv -[is_lower_hex];
    repeat match goal with H : is_lower_hex _ = true |- _ => rewrite H; clear H end;
    reflexivity.
Qed.

(** X9.  When the handler succeeds and the uuid package's generator gave
    sixteen bytes, [dataKeyUUID] is the text of a version 4 UUID: 36
    characters, 8-4-4-4-12 lower-case hexadecimal digits, version digit 4
    and variant digit 8, 9, a or b. *)
Theorem dataKeyUUID_has_the_v4_format :
  ∀ (w : World) (event : JsValue),
    length (rng w) = 16%nat →
    (∀ r, result (SecretStore.try_block w event tt) = Return r →
          ∃ uuid, uuid_v4_format uuid = true ∧ r = success_response uuid) ∧
    (∀ st r, result (EnvVar.try_block w event st) = Return r →
          ∃ uuid, uuid_v4_format uuid = true ∧ r = success_response uuid).
Proof.
  intros w event Hlen. split; [| intros st].
  - run; intros r H; try discriminate H. injection H as <-.
    eexists; split; [| reflexivity]. by apply v4_has_the_format.
  - run; intros r H; try discriminate H. injection H as <-.
    eexists; split; [| reflexivity]. by apply v4_has_the_format.
Qed.

(** An instance: the first example on the reachable backend. *)
Lemma dataKeyUUID_format_instance :
  length (rng reachable) = 16%nat ∧
  ∃ uuid, uuid_v4_format uuid = true ∧
          result (SecretStore.try_block reachable valid_request tt)
            = Return (success_response uuid).
Proof.
  split; [reflexivity |].
  destruct (dataKeyUUID_has_the_v4_format reachable valid_request eq_refl) as [H _].
  destruct (H (success_response (stringify reachable key_id)) eq_refl) as (uuid & Hf & Hr).
  exists uuid. split; [exact Hf |]. rewrite <- Hr. reflexivity.
Defined.

(** ** The body of the envelope *)

Lemma serialize_NoText (v : JsValue) : serialize v = NoText ↔ v = JsUndefined.
Proof.
  split; [| by intros ->].
  destruct v as [| | [] | text | | | items | props | props | ? ? props]; simpl;
    intros H; try discriminate H; try reflexivity.
  - by destruct (_ || _).
  - by destruct (elements_with serialize items).
  - by destruct (members_with serialize props).
  - by destruct (circular_members_with serialize props).
  - by destruct (members_with serialize props).
Qed.

(** X10.  An invocation returns exactly when its [try] block returns or the
    caught value can be serialized, and the body of every response it
    returns is a string.  In the error envelope the [error] field is
    itself a string that holds the JSON text of the caught value, so that
    text is quoted once more inside the body; the field is left out
    exactly when the caught value is [undefined]. *)
Theorem error_field_is_a_quoted_text :
  (∀ (w : World) (event : JsValue),
      (returns (result (SecretStore.invoke w event))
         = serializes (result (SecretStore.try_block w event tt)) ∧
       ∀ r, result (SecretStore.invoke w event) = Return r → ∃ text, body r = JsString text) ∧
      (∀ st,
         returns (result (EnvVar.invoke w event st))
           = serializes (result (EnvVar.try_block w event st)) ∧
         ∀ r, result (EnvVar.invoke w event st) = Return r → ∃ text, body r = JsString text)) ∧
  (∀ err : JsValue,
      (∃ e, JSON_stringify err = Throw e) ∨
      (∃ text, JSON_stringify err = Return (JsString text) ∧
               body (error_response err)
                 = JsString ("{" +:+ quote "message" +:+ ":" +:+ quote "error" +:+ "," +:+
                             quote "error" +:+ ":" +:+ quote text +:+ "}")) ∨
      (err = JsUndefined ∧
       body (error_response err)
         = JsString ("{" +:+ quote "message" +:+ ":" +:+ quote "error" +:+ "}"))) ∧
  (∀ err : JsValue, JSON_stringify err = Return JsUndefined ↔ err = JsUndefined).
Proof.
  split; [| split].
  - intros w event. split; [| intros st]; split.
    + unfold SecretStore.invoke, SecretStore.lambdaHandler. rewrite try_catch_result.
      unfold serializes, caught.
      destruct (result (SecretStore.try_block w event tt)) as [r | err]; [reflexivity |].
      by destruct (JSON_stringify err).
    + intros r. unfold SecretStore.invoke, SecretStore.lambdaHandler.
      rewrite try_catch_result.
      pose proof (SecretStore_try_block_success w event) as Hs.
      destruct (result (SecretStore.try_block w event tt)) as [r' | err].
      * intros H. injection H as ->. destruct (Hs r eq_refl) as (key & _ & ->). by eexists.
      * unfold caught, error_response, JSON_stringify, stringified.
        destruct (serialize err); intros H; try discriminate H;
          injection H as <-; by eexists.
    + unfold EnvVar.invoke, EnvVar.lambdaHandler. rewrite try_catch_result.
      unfold serializes, caught.
      destruct (result (EnvVar.try_block w event st)) as [r | err]; [reflexivity |].
      by destruct (JSON_stringify err).
    + intros r. unfold EnvVar.invoke, EnvVar.lambdaHandler. rewrite try_catch_result.
      pose proof (EnvVar_try_block_success w event st) as Hs.
      destruct (result (EnvVar.try_block w event st)) as [r' | err].
      * intros H. injection H as ->. destruct (Hs r eq_refl) as (key & _ & ->). by eexists.
      * unfold caught, error_response, JSON_stringify, stringified.
        destruct (serialize err); intros H; try discriminate H;
          injection H as <-; by eexists.
  - intros err. unfold error_response, JSON_stringify, stringified; simpl body.
    destruct (serialize err) as [text | | e] eqn:E.
    + right; left. exists text. split; [reflexivity |]. vm_compute. reflexivity.
    + right; right. apply serialize_NoText in E as ->. split; reflexivity.
    + left. by exists e.
  - intros err. unfold JSON_stringify. split; [| by intros ->].
    intros H. apply serialize_NoText. by destruct (serialize err).
Qed.

(** ** What a refused request throws *)

(** X12.  A request that has properties to read and misses a parameter is
    refused by the second variant before any other call: the invocation
    ends as the [catch] block on what the [throw] statement of lines
    192-194 threw, which is the [Error] whose message holds the texts of
    the three parameters, or the [TypeError] of the first parameter that
    the template literal cannot convert; that value is logged, and the
    bindings are left as they were. *)
Theorem refused_request_throws_the_parameter_texts :
  ∀ (w : World) (event : JsValue) (st : EnvVar.St),
    is_nullish event = false →
    missing_parameter (lookup_prop event "kmsKeyArn") (lookup_prop event "kmsKeyRegion")
                      (lookup_prop event "dekAltName") = true →
    let err := validation_failure (lookup_prop event "kmsKeyArn")
                 (lookup_prop event "kmsKeyRegion") (lookup_prop event "dekAltName") in
    EnvVar.invoke w event st = (caught err, st, [Console_log err]).
Proof.
  intros w event st Hevent Hmissing; cbv zeta. unfold validation_failure.
  unfold_handler. rewrite Hevent, Hmissing. cbv beta iota zeta.
  split_outcomes; by destruct st.
Qed.

(** Instances: an empty ARN gives the [Error] with the three texts; an
    alternate name that is an object with an own [toString] property gives
    the [TypeError] of the conversion, and no parameter error is made. *)
Lemma refused_request_instance :
  EnvVar.invoke reachable empty_arn_request freshly_loaded
    = (Return (error_response (parameter_error "" "ap-south-1" "x")), freshly_loaded,
       [Console_log (parameter_error "" "ap-south-1" "x")]) ∧
  EnvVar.invoke reachable unprintable_request freshly_loaded
    = (Return (error_response cannot_convert), freshly_loaded, [Console_log cannot_convert]).
Proof.
  split.
  - exact (refused_request_throws_the_parameter_texts reachable empty_arn_request
             freshly_loaded eq_refl eq_refl).
  - exact (refused_request_throws_the_parameter_texts reachable unprintable_request
             freshly_loaded eq_refl eq_refl).
Defined.

(** ** Loading the module *)

Lemma SecretStore_handler_makes_a_call (w : World) (event : JsValue) :
  ∃ c rest, calls (SecretStore.lambdaHandler w event tt) = c :: rest.
Proof. run; by eexists _, _. Qed.

Lemma EnvVar_handler_makes_a_call (w : World) (event : JsValue) (st : EnvVar.St) :
  ∃ c rest, calls (EnvVar.lambdaHandler w event st) = c :: rest.
Proof. run; by eexists _, _. Qed.

Lemma filter_from_handler (tr : list Event) :
  List.filter is_from_handler (map From_handler tr) = map From_handler tr.
Proof. induction tr as [| e tr IH]; [reflexivity | simpl; by rewrite IH]. Qed.

Lemma load_block_spec {S} (h : Host) (w : World) (st : S)
    (run_handler : JsValue → S → Outcome Response * S * list Event) :
  (∀ events s, ∃ c rest, calls (run_handler events s) = c :: rest) →
  let started :=
    strict_equals (ENV h) "local" &&
    match readFileSync h with
    | Return text => returns (JSON_parse w text)
    | Throw _ => false
    end in
  (∀ e, load_result (load_block h w st run_handler) = Throw e ↔
        strict_equals (ENV h) "local" = true ∧
        (readFileSync h = Throw e ∨
         ∃ text, readFileSync h = Return text ∧ JSON_parse w text = Throw e)) ∧
  existsb is_from_handler (load_calls (load_block h w st run_handler)) = started ∧
  (started = false → load_bindings (load_block h w st run_handler) = st) ∧
  (strict_equals (ENV h) "local" = false → load_calls (load_block h w st run_handler) = []) ∧
  (∀ text events,
      strict_equals (ENV h) "local" = true →
      readFileSync h = Return text → JSON_parse w text = Return events →
      List.filter is_from_handler (load_calls (load_block h w st run_handler))
        = map From_handler (calls (run_handler events st)) ∧
      load_bindings (load_block h w st run_handler) = bindings (run_handler events st)).
Proof.
  intros Hcall; cbv zeta. unfold load_block, returns, load_result, load_bindings, load_calls.
  destruct (strict_equals (ENV h) "local"); cbv beta iota zeta.
  - destruct (readFileSync h) as [text | e1]; cbv beta iota zeta.
    + destruct (JSON_parse w text) as [events | e2] eqn:Hparse; cbv beta iota zeta.
      * destruct (Hcall events st) as (c & rest & Hc).
        repeat apply conj.
        -- intros e. split; [intros H; discriminate H |].
           intros [_ [H | (t & Ht & H)]]; [discriminate H |].
           injection Ht as <-. congruence.
        -- rewrite Hc. reflexivity.
        -- rewrite Hc. intros H; discriminate H.
        -- intros H; discriminate H.
        -- intros t ev _ Ht Hev. injection Ht as <-. rewrite Hparse in Hev.
           injection Hev as <-. split; [| reflexivity].
           exact (filter_from_handler (calls (run_handler events st))).
      * repeat apply conj; try reflexivity; try (intros H; discriminate H).
        -- intros e. split.
           ++ intros H. injection H as ->. split; [reflexivity |]. right. by exists text.
           ++ intros [_ [H | (t & Ht & H)]]; [discriminate H |].
              injection Ht as <-. simpl. congruence.
        -- intros t ev _ Ht Hev. injection Ht as <-. congruence.
    + repeat apply conj; try reflexivity; try (intros H; discriminate H).
      * intros e. split.
        -- intros H. injection H as ->. split; [reflexivity |]. by left.
        -- intros [_ [H | (t & Ht & _)]]; [by injection H as -> | discriminate Ht].
      * intros t ev _ Ht. discriminate Ht.
  - repeat apply conj; try reflexivity.
    + intros e. split; [intros H; discriminate H | intros [H _]; discriminate H].
    + intros t ev H. discriminate H.
Qed.

(** X11.  Loading either variant throws only when, in local mode, reading
    event.json throws or [JSON.parse] throws on its text, and then that
    very value.  The handler is started exactly when the mode is local and
    both went through, once, on the parsed value; its response is not read,
    and nothing it meets makes loading throw.  Outside local mode loading
    makes no call and leaves the bindings as declared. *)
Theorem loading_throws_only_on_the_event_file :
  ∀ (h : Host) (w : World),
    let local := strict_equals (ENV h) "local" in
    let started :=
      local && match readFileSync h with
               | Return text => returns (JSON_parse w text)
               | Throw _ => false
               end in
    let unreadable (e : JsValue) :=
      local = true ∧
      (readFileSync h = Throw e ∨
       ∃ text, readFileSync h = Return text ∧ JSON_parse w text = Throw e) in
    ((∀ e, load_result (SecretStore_load h w) = Throw e ↔ unreadable e) ∧
     existsb is_from_handler (load_calls (SecretStore_load h w)) = started ∧
     (local = false → load_calls (SecretStore_load h w) = []) ∧
     (∀ text events,
         local = true → readFileSync h = Return text → JSON_parse w text = Return events →
         List.filter is_from_handler (load_calls (SecretStore_load h w))
           = map From_handler (calls (SecretStore.invoke w events)))) ∧
    ((∀ e, load_result (EnvVar_load h w) = Throw e ↔ unreadable e) ∧
     existsb is_from_handler (load_calls (EnvVar_load h w)) = started ∧
     (started = false → load_bindings (EnvVar_load h w) = EnvVar.loaded (MONGODB_URI h)) ∧
     (local = false → load_calls (EnvVar_load h w) = []) ∧
     (∀ text events,
         local = true → readFileSync h = Return text → JSON_parse w text = Return events →
         List.filter is_from_handler (load_calls (EnvVar_load h w))
           = map From_handler (calls (EnvVar.invoke w events (EnvVar.loaded (MONGODB_URI h)))) ∧
         load_bindings (EnvVar_load h w)
           = bindings (EnvVar.invoke w events (EnvVar.loaded (MONGODB_URI h))))).
Proof.
  intros h w; cbv zeta. split.
  - destruct (load_block_spec h w tt (SecretStore.lambdaHandler w))
      as (H1 & H2 & _ & H4 & H5).
    { intros events []. apply SecretStore_handler_makes_a_call. }
    repeat apply conj; [exact H1 | exact H2 | exact H4 |].
    intros text events Hl Hr Hp. exact (proj1 (H5 text events Hl Hr Hp)).
  - destruct (load_block_spec h w (EnvVar.loaded (MONGODB_URI h)) (EnvVar.lambdaHandler w))
      as (H1 & H2 & H3 & H4 & H5).
    { intros events s. apply EnvVar_handler_makes_a_call. }
    repeat apply conj; [exact H1 | exact H2 | exact H3 | exact H4 | exact H5].
Qed.

(** Instances: in local mode without the file, loading throws the file
    system's error and the handler is not started; in local mode with the
    file the handler is started and loading returns although the handler
    caught an error; a deployed module makes no call when loaded. *)
Lemma loading_instance :
  load_result (EnvVar_load local_host_without_file reachable) = Throw no_such_file ∧
  existsb is_from_handler (load_calls (EnvVar_load local_host_without_file reachable)) = false ∧
  load_result (EnvVar_load local_host reachable) = Return tt ∧
  existsb is_from_handler (load_calls (EnvVar_load local_host reachable)) = true ∧
  load_calls (SecretStore_load deployed_host reachable) = [].
Proof.
  destruct (loading_throws_only_on_the_event_file local_host_without_file reachable)
    as [_ (Ha & Hb & _)].
  destruct (loading_throws_only_on_the_event_file local_host reachable) as [_ (_ & Hc & _)].
  destruct (loading_throws_only_on_the_event_file deployed_host reachable) as [(_ & _ & Hd & _) _].
  split; [apply Ha; split; [reflexivity | by left] |].
  split; [exact Hb |]. split; [reflexivity |]. split; [exact Hc | exact (Hd eq_refl)].
Defined.
